(** * GHC25 GraphQL workshop helpers: a shallow embedding and its properties

    The development follows the five helper modules of the repository:
    - [helpers_env.py]: the naming utility ([sanitize_name],
      [build_api_name], [validate_identifiers]);
    - [helpers_appsync.py], [helpers_pipeline_resolvers.py]: the AppSync
      provisioner;
    - [helpers_ddb_pricing.py]: the DynamoDB tables;
    - [helpers_sns_sqs.py]: the SNS topic and the SQS queue.

    Python [str] values are modelled as [string] (sequences of 8-bit
    characters, read as ASCII text).  Calls to the boto3 clients are calls
    to handlers over an abstract service state; every call is recorded in a
    log, so that "how many creation calls were issued" is a statement about
    the log. *)

From Stdlib Require Import String Ascii List ZArith Lia Bool Arith.
Import ListNotations.
Open Scope string_scope.

(** ** Python strings *)

Module PyStr.

Definition code (c : ascii) : nat := nat_of_ascii c.

Definition between (lo hi : nat) (c : ascii) : bool :=
  (lo <=? code c)%nat && (code c <=? hi)%nat.

Definition is_upper (c : ascii) : bool := between 65 90 c.
Definition is_lower (c : ascii) : bool := between 97 122 c.
Definition is_digit (c : ascii) : bool := between 48 57 c.
Definition is_hyphen (c : ascii) : bool := Ascii.eqb c "-".

(** [c.isalpha()] on ASCII text. *)
Definition isalpha (c : ascii) : bool := is_upper c || is_lower c.

(** The characters [str.strip()] removes, on ASCII text: space, the
    controls 9..13 and the separators 28..31. *)
Definition is_space (c : ascii) : bool :=
  (code c =? 32)%nat || between 9 13 c || between 28 31 c.

Definition lower_char (c : ascii) : ascii :=
  if is_upper c then ascii_of_nat (code c + 32) else c.

Fixpoint map_chars (f : ascii -> ascii) (s : string) : string :=
  match s with
  | EmptyString => EmptyString
  | String c r => String (f c) (map_chars f r)
  end.

Fixpoint filter_chars (p : ascii -> bool) (s : string) : string :=
  match s with
  | EmptyString => EmptyString
  | String c r => if p c then String c (filter_chars p r) else filter_chars p r
  end.

(** [s.lower()] *)
Definition lower (s : string) : string := map_chars lower_char s.

(** [s.replace(a, b)] for one-character [a] and [b]. *)
Definition replace_char (a b : ascii) (s : string) : string :=
  map_chars (fun c => if Ascii.eqb c a then b else c) s.

Fixpoint lstrip (p : ascii -> bool) (s : string) : string :=
  match s with
  | EmptyString => EmptyString
  | String c r => if p c then lstrip p r else s
  end.

Fixpoint rstrip (p : ascii -> bool) (s : string) : string :=
  match s with
  | EmptyString => EmptyString
  | String c r =>
      match rstrip p r with
      | EmptyString => if p c then EmptyString else String c EmptyString
      | r' => String c r'
      end
  end.

(** [s.strip()] and [s.strip(chars)]: both ends. *)
Definition strip (p : ascii -> bool) (s : string) : string :=
  rstrip p (lstrip p s).

Definition starts_with_hyphen (s : string) : bool :=
  match s with
  | String c _ => is_hyphen c
  | EmptyString => false
  end.

(** [re.sub(r"-+", "-", s)]: every maximal run of hyphens becomes one. *)
Fixpoint collapse_hyphens (s : string) : string :=
  match s with
  | EmptyString => EmptyString
  | String c r =>
      if is_hyphen c && starts_with_hyphen r
      then collapse_hyphens r
      else String c (collapse_hyphens r)
  end.

(** The class [[a-z0-9-]]. *)
Definition allowed (c : ascii) : bool := is_lower c || is_digit c || is_hyphen c.

Fixpoint take (n : nat) (s : string) : string :=
  match n, s with
  | O, _ => EmptyString
  | S _, EmptyString => EmptyString
  | S n', String c r => String c (take n' r)
  end.

(** [s[:n]] for any integer [n]: a negative bound counts from the end. *)
Definition slice_to (s : string) (n : Z) : string :=
  let len := Z.of_nat (String.length s) in
  let stop := if (n <? 0)%Z then Z.max 0 (len + n) else n in
  take (Z.to_nat stop) s.

(** [needle in hay] *)
Fixpoint contains (needle hay : string) : bool :=
  String.prefix needle hay ||
  match hay with
  | EmptyString => false
  | String _ r => contains needle r
  end.

(** [s.split(sep)] for a one-character separator: never empty. *)
Fixpoint split (sep : ascii) (s : string) : list string :=
  match s with
  | EmptyString => [EmptyString]
  | String c r =>
      if Ascii.eqb c sep then EmptyString :: split sep r
      else match split sep r with
           | [] => [String c EmptyString]
           | h :: t => String c h :: t
           end
  end.

Fixpoint all_chars (p : ascii -> bool) (s : string) : bool :=
  match s with
  | EmptyString => true
  | String c r => p c && all_chars p r
  end.

Fixpoint has_double_hyphen (s : string) : bool :=
  match s with
  | EmptyString => false
  | String c r => (is_hyphen c && starts_with_hyphen r) || has_double_hyphen r
  end.

Fixpoint last_is (p : ascii -> bool) (s : string) : bool :=
  match s with
  | EmptyString => false
  | String c EmptyString => p c
  | String _ r => last_is p r
  end.

Definition ends_with_hyphen (s : string) : bool := last_is is_hyphen s.

Definition first_is (p : ascii -> bool) (s : string) : bool :=
  match s with
  | String c _ => p c
  | EmptyString => false
  end.

Definition is_empty (s : string) : bool :=
  match s with
  | EmptyString => true
  | String _ _ => false
  end.

End PyStr.

(** ** Exceptions and results *)

Inductive exn_class : Type :=
| NotFoundException
| ResourceNotFoundException
| ServiceFault (code : string)
| WaiterError
| RuntimeError
| ValueError
| IndexError
| OverflowError.

Record exn : Type := Exn { exn_cls : exn_class; exn_msg : string }.

Inductive result (A : Type) : Type :=
| Ok (a : A)
| Raise (e : exn).
Arguments Ok {A} a.
Arguments Raise {A} e.

(** ** helpers_env.py *)

Module Env.
Import PyStr.

Definition sanitize_name (name : string) : string :=
  let s := replace_char " " "-" (strip is_space (lower name)) in
  let s := filter_chars allowed s in
  let s := strip is_hyphen (collapse_hyphens s) in
  if is_empty s || negb (first_is isalpha s) then "u-" ++ s else s.

(** The f-string [f"{prefix}-{base}-{suffix}"]. *)
Definition api_name_of (prefix base suffix : string) : string :=
  prefix ++ "-" ++ base ++ "-" ++ suffix.

Definition build_api_name (display_name suffix prefix : string) (max_len : Z)
  : string * string :=
  let base := sanitize_name display_name in
  let candidate := api_name_of prefix base suffix in
  if (Z.of_nat (String.length candidate) >? max_len)%Z then
    let overflow := (Z.of_nat (String.length candidate) - max_len)%Z in
    let base :=
      if (overflow <? Z.of_nat (String.length base))%Z
      then slice_to base (- overflow)
      else slice_to base (Z.max 1 (Z.of_nat (String.length base) - overflow)) in
    (api_name_of prefix base suffix, base)
  else (candidate, base).

(** The defaults of the signature: [prefix="ghc25"], [max_len=40]. *)
Definition build_api_name_default (display_name suffix : string) :=
  build_api_name display_name suffix "ghc25" 40.

Definition validate_identifiers (first_name_prefix birth_mmdd : string)
  : result unit :=
  if is_empty first_name_prefix || String.eqb first_name_prefix "NAME" then
    Raise (Exn ValueError
      "ERROR: Please replace 'NAME' with the first 4 letters of your first name")
  else if is_empty birth_mmdd || String.eqb birth_mmdd "MMDD" then
    Raise (Exn ValueError
      "ERROR: Please replace 'MMDD' with your birth month and day (e.g., '0315' for March 15)")
  else Ok tt.

End Env.

(** ** Service calls and the provisioning monad *)

(** Python truthiness of an optional string ([None] and [""] are falsy). *)
Definition truthy (t : option string) : bool :=
  match t with
  | Some s => negb (PyStr.is_empty s)
  | None => false
  end.

(** [d.get(key, [])] *)
Definition get_list {A : Type} (o : option (list A)) : list A :=
  match o with
  | Some l => l
  | None => []
  end.

(** Shapes of the boto3 requests and responses the helpers touch.  A
    descriptor dict carries its ["name"] and the rest of its fields. *)

Record graphql_api : Type := GraphqlApi
  { api_name : string; api_id : string; api_arn : string }.

Record log_config : Type := LogConfig
  { cloudWatchLogsRoleArn : string; fieldLogLevel : string }.

Record create_api_kwargs : Type := CreateApiKwargs
  { kw_name : string;
    kw_authenticationType : string;
    kw_xrayEnabled : bool;
    kw_logConfig : option log_config }.

Record list_apis_response : Type := ListApisResponse
  { graphqlApis : option (list graphql_api); apis_nextToken : option string }.

Record schema_status : Type := SchemaStatus
  { status : option string; details : option string }.

Record api_key : Type := ApiKey { key_id : string; key_expires : Z }.

Inductive ds_config : Type :=
| NoConfig
| DynamodbConfig (tableName awsRegion : string) (useCallerCredentials : bool)
| HttpConfig (endpoint authorizationType signingRegion signingServiceName : string).

Record data_source : Type := DataSource
  { ds_name : string; ds_type : string; ds_arn : string }.

Record data_source_request : Type := DataSourceRequest
  { dsr_apiId : string;
    dsr_name : string;
    dsr_type : string;
    dsr_serviceRoleArn : option string;
    dsr_config : ds_config }.

Record list_ds_response : Type := ListDsResponse
  { dataSources : option (list data_source); ds_nextToken : option string }.

Record js_runtime : Type := JsRuntime { rt_name : string; runtimeVersion : string }.

Inductive resolver_request : Type :=
| UnitResolver (apiId typeName fieldName dataSourceName : string)
    (runtime : js_runtime) (code : string)
| PipelineResolver (apiId typeName fieldName kind : string)
    (requestMappingTemplate responseMappingTemplate : string)
    (functions : list string).

Record function_request : Type := FunctionRequest
  { fr_apiId : string;
    fr_functionId : option string;
    fr_name : string;
    fr_dataSourceName : string;
    fr_runtime : js_runtime;
    fr_code : string }.

Record function_configuration : Type := FunctionConfiguration
  { fc_functionId : string; fc_name : string }.

Record table_request : Type := TableRequest
  { TableName : string;
    AttributeDefinitions : list (string * string);
    KeySchema : list (string * string);
    BillingMode : string;
    SSEEnabled : bool }.

Record table_description : Type := TableDescription
  { tbl_name : string; tbl_status : string; tbl_arn : string }.

Record list_queues_response : Type := ListQueuesResponse
  { QueueUrls : option (list string) }.

(** What a run leaves behind: the calls issued, in order. *)
Inductive event : Type :=
| ListGraphqlApis (nextToken : option string)
| CreateGraphqlApi (kw : create_api_kwargs)
| ReadBytes (path : string)
| StartSchemaCreation (apiId definition : string)
| GetSchemaCreationStatus (apiId : string)
| Sleep (seconds : Z)
| CreateApiKey (apiId description : string) (expires : Z)
| ListDataSources (apiId : string)
| CreateDataSource (req : data_source_request)
| UpdateResolver (req : resolver_request)
| CreateResolver (req : resolver_request)
| UpdateFunction (req : function_request)
| CreateFunction (req : function_request)
| DescribeTable (name : string)
| CreateTable (req : table_request)
| WaitTableExists (name : string)
| CreateTopic (name : string)
| ListTopics
| CreateQueue (name : string) (attributes : list (string * string))
| GetQueueAttributes (url : string) (names : list string)
| ListQueues (prefix : string).

(** The mutating "create" calls of the control plane. *)
Definition is_creation (e : event) : bool :=
  match e with
  | CreateGraphqlApi _ | CreateApiKey _ _ _ | CreateDataSource _
  | CreateResolver _ | CreateFunction _ | CreateTable _
  | CreateTopic _ | CreateQueue _ _ => true
  | _ => false
  end.

Definition creation_calls (log : list event) : nat :=
  List.length (List.filter is_creation log).

(** The third outcome is for the one unbounded loop of the code
    ([while True] in [find_api_by_name]) when the model's fuel is spent. *)
Inductive outcome (A : Type) : Type :=
| Returned (a : A)
| Raised (e : exn)
| OutOfFuel.
Arguments Returned {A} a.
Arguments Raised {A} e.
Arguments OutOfFuel {A}.

(** The state [W] of the cloud account (with the clock and the file
    system) is left abstract; a run threads it together with the log. *)
Record run_state (W : Type) : Type := RunState { world : W; log : list event }.
Arguments RunState {W} world log.
Arguments world {W} r.
Arguments log {W} r.

Definition M (W A : Type) : Type := run_state W -> outcome A * run_state W.

(** A service handler answers from the account state and may change it. *)
Definition handler (W A : Type) : Type := W -> result A * W.

(** The boto3 clients.  A handler stands for the call together with the
    projection the helper applies to its response (["graphqlApi"],
    ["dataSource"], ["Table"], ["TopicArn"], ...).  The client method
    [create_function] is [create_function_call] here; the helper of
    [helpers_pipeline_resolvers.py] keeps the name [create_function]. *)
Record appsync_client (W : Type) : Type := AppSyncClient
  { list_graphql_apis : option string -> handler W list_apis_response;
    create_graphql_api : create_api_kwargs -> handler W graphql_api;
    start_schema_creation : string -> string -> handler W unit;
    get_schema_creation_status : string -> handler W schema_status;
    create_api_key : string -> string -> Z -> handler W api_key;
    list_data_sources : string -> handler W list_ds_response;
    create_data_source : data_source_request -> handler W data_source;
    update_resolver : resolver_request -> handler W unit;
    create_resolver : resolver_request -> handler W unit;
    update_function : function_request -> handler W function_configuration;
    create_function_call : function_request -> handler W function_configuration }.
Arguments list_graphql_apis {W} a.
Arguments create_graphql_api {W} a.
Arguments start_schema_creation {W} a.
Arguments get_schema_creation_status {W} a.
Arguments create_api_key {W} a.
Arguments list_data_sources {W} a.
Arguments create_data_source {W} a.
Arguments update_resolver {W} a.
Arguments create_resolver {W} a.
Arguments update_function {W} a.
Arguments create_function_call {W} a.

Record dynamodb_client (W : Type) : Type := DynamoDbClient
  { describe_table : string -> handler W table_description;
    create_table : table_request -> handler W table_description;
    wait_table_exists : string -> handler W unit }.
Arguments describe_table {W} d.
Arguments create_table {W} d.
Arguments wait_table_exists {W} d.

Record sns_client (W : Type) : Type := SnsClient
  { create_topic : string -> handler W string;
    list_topics : handler W (list string) }.
Arguments create_topic {W} s.
Arguments list_topics {W} s.

Record sqs_client (W : Type) : Type := SqsClient
  { create_queue : string -> list (string * string) -> handler W string;
    get_queue_attributes : string -> list string -> handler W string;
    list_queues : string -> handler W list_queues_response }.
Arguments create_queue {W} s.
Arguments get_queue_attributes {W} s.
Arguments list_queues {W} s.

(** What the helpers use besides the clients: [pathlib.Path.read_bytes],
    the clock (microseconds since the epoch, UTC) and [time.sleep]. *)
Record environment (W : Type) : Type := Environment
  { read_bytes : string -> handler W string;
    utc_now : W -> Z;
    sleep : Z -> W -> W }.
Arguments read_bytes {W} e.
Arguments utc_now {W} e.
Arguments sleep {W} e.

Section Monad.
Context {W : Type}.

Definition ret {A : Type} (a : A) : M W A := fun s => (Returned a, s).

Definition raise {A : Type} (e : exn) : M W A := fun s => (Raised e, s).

Definition out_of_fuel {A : Type} : M W A := fun s => (OutOfFuel, s).

Definition bind {A B : Type} (m : M W A) (k : A -> M W B) : M W B :=
  fun s =>
    match m s with
    | (Returned a, s') => k a s'
    | (Raised e, s') => (Raised e, s')
    | (OutOfFuel, s') => (OutOfFuel, s')
    end.

(** [try: body except <handles> as e: handler(e)] *)
Definition try_except {A : Type} (body : M W A) (handles : exn -> bool)
    (on_exn : exn -> M W A) : M W A :=
  fun s =>
    match body s with
    | (Raised e, s') => if handles e then on_exn e s' else (Raised e, s')
    | r => r
    end.

(** Issue a call: run the handler and record the event. *)
Definition call {A : Type} (ev : event) (h : handler W A) : M W A :=
  fun s =>
    let (r, w) := h (world s) in
    let s' := RunState w (log s ++ [ev]) in
    match r with
    | Ok a => (Returned a, s')
    | Raise e => (Raised e, s')
    end.

(** [time.sleep(seconds)] *)
Definition do_sleep (E : environment W) (seconds : Z) : M W unit :=
  fun s => (Returned tt, RunState (sleep E seconds (world s)) (log s ++ [Sleep seconds])).

(** [datetime.now(timezone.utc)] *)
Definition now (E : environment W) : M W Z :=
  fun s => (Returned (utc_now E (world s)), s).

(** A run from a fresh log. *)
Definition run {A : Type} (m : M W A) (w : W) : outcome A * run_state W :=
  m (RunState w []).

End Monad.

Declare Scope prov_scope.
Delimit Scope prov_scope with prov.
Notation "x <- m ;; k" := (bind m (fun x => k))
  (at level 61, m at next level, right associativity) : prov_scope.
Notation "m ;;; k" := (bind m (fun _ => k))
  (at level 61, right associativity) : prov_scope.
Open Scope prov_scope.

(** ** helpers_appsync.py *)

Module AppSync.

Section WithWorld.
Context {W : Type}.

Definition name_is (name : string) (api : graphql_api) : bool :=
  String.eqb (api_name api) name.

(** [find_api_by_name]: one round of the [while True] loop per unit of
    fuel.  [token] is what the previous page left; the first request and any
    request after a falsy token carry no [nextToken]. *)
Fixpoint find_api_by_name (fuel : nat) (client : appsync_client W)
    (name : string) (token : option string) : M W (option graphql_api) :=
  match fuel with
  | O => out_of_fuel
  | S fuel' =>
      let arg := if truthy token then token else None in
      resp <- call (ListGraphqlApis arg) (list_graphql_apis client arg) ;;
      match List.find (name_is name) (get_list (graphqlApis resp)) with
      | Some api => ret (Some api)
      | None =>
          let token := apis_nextToken resp in
          if truthy token then find_api_by_name fuel' client name token
          else ret None
      end
  end.

(** The keyword arguments [ensure_api] builds for the creation call. *)
Definition api_kwargs (name : string) (cloudwatch_logs_role_arn : option string)
    (enable_xray : bool) : create_api_kwargs :=
  CreateApiKwargs name "API_KEY" enable_xray
    (if truthy cloudwatch_logs_role_arn
     then match cloudwatch_logs_role_arn with
          | Some arn => Some (LogConfig arn "ERROR")
          | None => None
          end
     else None).

(** [ensure_api].  A descriptor found by name is a non-empty dict, so the
    test [if api:] is the test that the lookup did not return [None]. *)
Definition ensure_api (fuel : nat) (client : appsync_client W) (name : string)
    (cloudwatch_logs_role_arn : option string) (enable_xray : bool)
  : M W graphql_api :=
  api <- find_api_by_name fuel client name None ;;
  match api with
  | Some api => ret api
  | None =>
      let kwargs := api_kwargs name cloudwatch_logs_role_arn enable_xray in
      call (CreateGraphqlApi kwargs) (create_graphql_api client kwargs)
  end.

Definition terminal_status (s : option string) : bool :=
  match s with
  | Some s => String.eqb s "SUCCESS" || String.eqb s "FAILED"
              || String.eqb s "NOT_APPLICABLE"
  | None => false
  end.

Definition text_of (o : option string) : string :=
  match o with
  | Some s => s
  | None => "None"
  end.

Definition schema_error (st : option string) (details : string) : exn :=
  Exn RuntimeError
    ("Schema status=" ++ text_of st ++ ": " ++ PyStr.slice_to details 400).

(** The loop [for _ in range(30)] of [upload_schema], [n] rounds left. *)
Fixpoint poll_schema (n : nat) (E : environment W) (client : appsync_client W)
    (api_id : string) : M W unit :=
  match n with
  | O => ret tt
  | S n' =>
      st <- call (GetSchemaCreationStatus api_id)
                 (get_schema_creation_status client api_id) ;;
      let details := match details st with Some d => d | None => "" end in
      if terminal_status (status st) then
        if negb (match status st with
                 | Some s => String.eqb s "SUCCESS"
                 | None => false
                 end)
        then raise (schema_error (status st) details)
        else ret tt
      else
        do_sleep E 2 ;;; poll_schema n' E client api_id
  end.

Definition upload_schema (E : environment W) (client : appsync_client W)
    (api_id schema_path : string) : M W unit :=
  data <- call (ReadBytes schema_path) (read_bytes E schema_path) ;;
  call (StartSchemaCreation api_id data)
       (start_schema_creation client api_id data) ;;;
  poll_schema 30 E client api_id.





Definition lift {A : Type} (r : result A) : M W A :=
  match r with
  | Ok a => ret a
  | Raise e => raise e
  end.


Definition ds_named (name : string) (d : data_source) : bool :=
  String.eqb (ds_name d) name.

(** [xs[3]] *)
Definition index3 (xs : list string) : result string :=
  match List.nth_error xs 3 with
  | Some x => Ok x
  | None => Raise (Exn IndexError "list index out of range")
  end.

(** [xs[-1]] of a non-empty list. *)
Definition last_of (xs : list string) : string := List.last xs "".

Definition ensure_ddb_ds (client : appsync_client W)
    (api_id name table_arn role_arn : string) : M W data_source :=
  resp <- call (ListDataSources api_id) (list_data_sources client api_id) ;;
  match List.find (ds_named name) (get_list (dataSources resp)) with
  | Some d => ret d
  | None =>
      let table := last_of (PyStr.split "/" table_arn) in
      region <- lift (index3 (PyStr.split ":" table_arn)) ;;
      let req := DataSourceRequest api_id name "AMAZON_DYNAMODB"
                   (Some role_arn) (DynamodbConfig table region false) in
      call (CreateDataSource req) (create_data_source client req)
  end.

Definition ensure_none_ds (client : appsync_client W) (api_id name : string)
  : M W data_source :=
  resp <- call (ListDataSources api_id) (list_data_sources client api_id) ;;
  match List.find (ds_named name) (get_list (dataSources resp)) with
  | Some d => ret d
  | None =>
      let req := DataSourceRequest api_id name "NONE" None NoConfig in
      call (CreateDataSource req) (create_data_source client req)
  end.

Definition is_not_found (e : exn) : bool :=
  match exn_cls e with
  | NotFoundException => true
  | _ => false
  end.

Definition appsync_js : js_runtime := JsRuntime "APPSYNC_JS" "1.0.0".

Definition upsert_js_resolver (client : appsync_client W)
    (api_id type_name field ds_name js_code : string) : M W unit :=
  let req := UnitResolver api_id type_name field ds_name appsync_js js_code in
  try_except
    (call (UpdateResolver req) (update_resolver client req))
    is_not_found
    (fun _ => call (CreateResolver req) (create_resolver client req)).

End WithWorld.

End AppSync.

(** ** helpers_pipeline_resolvers.py *)

Module Pipeline.

Section WithWorld.
Context {W : Type}.

Definition create_pipeline_resolver (client : appsync_client W)
    (api_id type_name field : string) (functions : list string) : M W unit :=
  let req := PipelineResolver api_id type_name field "PIPELINE"
               "{}" "$util.toJson($ctx.result)" functions in
  try_except
    (call (UpdateResolver req) (update_resolver client req))
    AppSync.is_not_found
    (fun _ => call (CreateResolver req) (create_resolver client req)).

Definition create_function (client : appsync_client W)
    (api_id name ds_name js_code : string) : M W function_configuration :=
  let upd := FunctionRequest api_id (Some name) name ds_name
               AppSync.appsync_js js_code in
  let crt := FunctionRequest api_id None name ds_name
               AppSync.appsync_js js_code in
  try_except
    (call (UpdateFunction upd) (update_function client upd))
    AppSync.is_not_found
    (fun _ => call (CreateFunction crt) (create_function_call client crt)).

Definition ensure_sns_ds (client : appsync_client W)
    (api_id name topic_arn role_arn : string) : M W data_source :=
  resp <- call (ListDataSources api_id) (list_data_sources client api_id) ;;
  match List.find (AppSync.ds_named name) (get_list (dataSources resp)) with
  | Some d => ret d
  | None =>
      region <- AppSync.lift (AppSync.index3 (PyStr.split ":" topic_arn)) ;;
      let req := DataSourceRequest api_id name "HTTP" (Some role_arn)
                   (HttpConfig ("https://sns." ++ region ++ ".amazonaws.com/")
                      "AWS_IAM" region "sns") in
      call (CreateDataSource req) (create_data_source client req)
  end.

End WithWorld.

End Pipeline.

(** ** helpers_ddb_pricing.py *)

Module Pricing.

Section WithWorld.
Context {W : Type}.

Definition is_resource_not_found (e : exn) : bool :=
  match exn_cls e with
  | ResourceNotFoundException => true
  | _ => false
  end.

(** The arguments of [create_table]: a string hash key, billed per
    request, encrypted at rest. *)
Definition table_request_for (key table_name : string) : table_request :=
  TableRequest table_name [(key, "S")] [(key, "HASH")] "PAY_PER_REQUEST" true.

(** The body the two table helpers share: they differ in the key only. *)
Definition ensure_table (boto3_dynamodb : string -> dynamodb_client W)
    (key : string) (table_name region : string) : M W table_description :=
  let ddb := boto3_dynamodb region in
  found <- try_except
             (t <- call (DescribeTable table_name) (describe_table ddb table_name) ;;
              ret (Some t))
             is_resource_not_found
             (fun _ => ret None) ;;
  match found with
  | Some t => ret t
  | None =>
      let req := table_request_for key table_name in
      call (CreateTable req) (create_table ddb req) ;;;
      call (WaitTableExists table_name) (wait_table_exists ddb table_name) ;;;
      call (DescribeTable table_name) (describe_table ddb table_name)
  end.

Definition ensure_catalog_table (boto3_dynamodb : string -> dynamodb_client W)
    (table_name region : string) : M W table_description :=
  ensure_table boto3_dynamodb "asin" table_name region.


End WithWorld.

End Pricing.

(** ** helpers_sns_sqs.py *)

Module SnsSqs.

Section WithWorld.
Context {W : Type}.

(** [except Exception] *)
Definition any_exception (e : exn) : bool := true.

(** ["already exists" in str(e).lower()] *)
Definition says_already_exists (e : exn) : bool :=
  PyStr.contains "already exists" (PyStr.lower (exn_msg e)).

Definition ensure_sns_topic (boto3_sns : string -> sns_client W)
    (api_name region : string) : M W (option string) :=
  let topic_name := api_name ++ "-price-changes" in
  let sns := boto3_sns region in
  try_except
    (arn <- call (CreateTopic topic_name) (create_topic sns topic_name) ;;
     ret (Some arn))
    any_exception
    (fun e =>
       if says_already_exists e then
         topics <- call ListTopics (list_topics sns) ;;
         ret (List.find (PyStr.contains topic_name) topics)
       else raise e).

Definition queue_attributes : list (string * string) :=
  [("MessageRetentionPeriod", "1209600"); ("VisibilityTimeout", "60")].

Definition ensure_sqs_queue (boto3_sqs : string -> sqs_client W)
    (api_name region : string) : M W (string * string) :=
  let queue_name := api_name ++ "-price-processing" in
  let sqs := boto3_sqs region in
  try_except
    (queue_url <- call (CreateQueue queue_name queue_attributes)
                       (create_queue sqs queue_name queue_attributes) ;;
     queue_arn <- call (GetQueueAttributes queue_url ["QueueArn"])
                       (get_queue_attributes sqs queue_url ["QueueArn"]) ;;
     ret (queue_url, queue_arn))
    any_exception
    (fun e =>
       if says_already_exists e then
         queues <- call (ListQueues queue_name) (list_queues sqs queue_name) ;;
         match QueueUrls queues with
         | Some (queue_url :: _) =>
             queue_arn <- call (GetQueueAttributes queue_url ["QueueArn"])
                               (get_queue_attributes sqs queue_url ["QueueArn"]) ;;
             ret (queue_url, queue_arn)
         | _ => raise e
         end
       else raise e).

(** The name a topic ARN or a queue URL ends in. *)
Definition topic_name_of (arn : string) : string :=
  AppSync.last_of (PyStr.split ":" arn).

Definition queue_name_of (url : string) : string :=
  AppSync.last_of (PyStr.split "/" url).

End WithWorld.

End SnsSqs.

(** ** Vocabulary of the properties *)

Module Vocabulary.
Import PyStr.

(** What is left of a name before the marker is considered. *)
Definition sanitize_core (name : string) : string :=
  strip is_hyphen
    (collapse_hyphens
       (filter_chars allowed
          (replace_char " " "-" (strip is_space (lower name))))).

(** The three shapes of a sanitized name. *)
Inductive sanitized (name : string) : string -> Prop :=
| sanitized_marker_only :
    sanitize_core name = "" -> sanitized name "u-"
| sanitized_marked c t :
    sanitize_core name = String c t -> isalpha c = false ->
    sanitized name ("u-" ++ String c t)
| sanitized_plain c t :
    sanitize_core name = String c t -> isalpha c = true ->
    sanitized name (String c t).

(** A resource-name-safe string: lowercase letters, digits and hyphens
    only, a letter first, no hyphen at either end and no two in a row. *)
Definition well_formed_name (s : string) : bool :=
  all_chars allowed s
  && first_is is_lower s
  && negb (starts_with_hyphen s)
  && negb (ends_with_hyphen s)
  && negb (has_double_hyphen s).

Definition raises {A : Type} (r : result A) : Prop :=
  exists e, r = Raise e.

Definition outcome_of {A : Type} (r : result A) : outcome A :=
  match r with
  | Ok a => Returned a
  | Raise e => Raised e
  end.

Definition raised {A : Type} (o : outcome A) : Prop :=
  exists e, o = Raised e.

(** The update-then-create pattern, read off the answer [upd] of the update
    call: the update alone when it succeeds or fails with another fault,
    the update and then the create call when it fails with the not-found
    signal; a fault of either call reaches the caller as it is. *)
Definition update_then_create {W A : Type} (upd : result A * W)
    (create : handler W A) (U C : event) (res : outcome A * run_state W) : Prop :=
  (forall v, fst upd = Ok v -> res = (Returned v, RunState (snd upd) [U]))
  /\ (forall e, fst upd = Raise e -> AppSync.is_not_found e = false ->
      res = (Raised e, RunState (snd upd) [U]))
  /\ (forall e, fst upd = Raise e -> AppSync.is_not_found e = true ->
      res = (outcome_of (fst (create (snd upd))),
             RunState (snd (create (snd upd))) [U; C])).

(** The answers [n] polls of the schema status would get, two seconds
    apart. *)
Fixpoint answers {W : Type} (n : nat) (E : environment W)
    (client : appsync_client W) (api_id : string) (w : W)
  : list (result schema_status) :=
  match n with
  | O => []
  | S n' =>
      let (r, w') := get_schema_creation_status client api_id w in
      r :: answers n' E client api_id (sleep E 2 w')
  end.

(** An answer that ends the polling: a terminal status, or a fault. *)
Definition stops (r : result schema_status) : bool :=
  match r with
  | Ok st => AppSync.terminal_status (status st)
  | Raise _ => true
  end.

Definition is_success (st : schema_status) : bool :=
  match status st with
  | Some s => String.eqb s "SUCCESS"
  | None => false
  end.

(** What the first stopping answer, if any, makes of the upload. *)
Definition verdict (r : option (result schema_status)) : outcome unit :=
  match r with
  | None => Returned tt
  | Some (Raise e) => Raised e
  | Some (Ok st) =>
      if is_success st then Returned tt
      else Raised (AppSync.schema_error (status st)
                     (match details st with Some d => d | None => "" end))
  end.

(** The calls of a polling loop that gets these answers. *)
Fixpoint polling_log (api_id : string) (rs : list (result schema_status))
  : list event :=
  match rs with
  | [] => []
  | r :: rest =>
      GetSchemaCreationStatus api_id ::
      (if stops r then [] else Sleep 2 :: polling_log api_id rest)
  end.

Definition is_poll (e : event) : bool :=
  match e with
  | GetSchemaCreationStatus _ => true
  | _ => false
  end.

(** The request [find_api_by_name] sends for a token. *)
Definition page_request (token : option string) : option string :=
  if truthy token then token else None.

(** [pages_from client token w apis w' n]: listing the APIs from [token]
    on, page after page until no token is left, takes [n] requests, yields
    [apis] and leaves the account in [w']. *)
Inductive pages_from {W : Type} (client : appsync_client W)
  : option string -> W -> list graphql_api -> W -> nat -> Prop :=
| last_page token w resp w' :
    list_graphql_apis client (page_request token) w = (Ok resp, w') ->
    truthy (apis_nextToken resp) = false ->
    pages_from client token w (get_list (graphqlApis resp)) w' 1
| next_page token w resp w1 rest w2 n :
    list_graphql_apis client (page_request token) w = (Ok resp, w1) ->
    truthy (apis_nextToken resp) = true ->
    pages_from client (apis_nextToken resp) w1 rest w2 n ->
    pages_from client token w (get_list (graphqlApis resp) ++ rest) w2 (S n).



End Vocabulary.

(** ** A small account to run the helpers on *)

Module Demo.

Record account : Type := Account
  { api_pages : list (list graphql_api);
    sources : list data_source;
    resolvers : list (string * string);
    functions : list string;
    tables : list table_description;
    schema_pending : nat;
    schema_result : string;
    topics : list string;
    topic_fault : option exn;
    queues : list string;
    queue_fault : option exn;
    clock : Z }.

Definition set_pages (a : account) (p : list (list graphql_api)) : account :=
  Account p (sources a) (resolvers a) (functions a) (tables a)
    (schema_pending a) (schema_result a) (topics a) (topic_fault a)
    (queues a) (queue_fault a) (clock a).

Definition set_sources (a : account) (l : list data_source) : account :=
  Account (api_pages a) l (resolvers a) (functions a) (tables a)
    (schema_pending a) (schema_result a) (topics a) (topic_fault a)
    (queues a) (queue_fault a) (clock a).

Definition set_resolvers (a : account) (l : list (string * string)) : account :=
  Account (api_pages a) (sources a) l (functions a) (tables a)
    (schema_pending a) (schema_result a) (topics a) (topic_fault a)
    (queues a) (queue_fault a) (clock a).

Definition set_functions (a : account) (l : list string) : account :=
  Account (api_pages a) (sources a) (resolvers a) l (tables a)
    (schema_pending a) (schema_result a) (topics a) (topic_fault a)
    (queues a) (queue_fault a) (clock a).

Definition set_tables (a : account) (l : list table_description) : account :=
  Account (api_pages a) (sources a) (resolvers a) (functions a) l
    (schema_pending a) (schema_result a) (topics a) (topic_fault a)
    (queues a) (queue_fault a) (clock a).

Definition set_pending (a : account) (n : nat) : account :=
  Account (api_pages a) (sources a) (resolvers a) (functions a) (tables a)
    n (schema_result a) (topics a) (topic_fault a)
    (queues a) (queue_fault a) (clock a).

Definition set_clock (a : account) (t : Z) : account :=
  Account (api_pages a) (sources a) (resolvers a) (functions a) (tables a)
    (schema_pending a) (schema_result a) (topics a) (topic_fault a)
    (queues a) (queue_fault a) t.

(** Page [k] of the API listing is asked for with a token of [k] marks. *)
Fixpoint marks (k : nat) : string :=
  match k with
  | O => ""
  | S k' => String "+" (marks k')
  end.

Definition page_of (token : option string) : nat :=
  match token with
  | Some t => String.length t
  | None => 0
  end.

Definition resolver_key (req : resolver_request) : string * string :=
  match req with
  | UnitResolver _ t f _ _ _ => (t, f)
  | PipelineResolver _ t f _ _ _ _ => (t, f)
  end.

Definition same_key (k1 k2 : string * string) : bool :=
  String.eqb (fst k1) (fst k2) && String.eqb (snd k1) (snd k2).

Definition appsync : appsync_client account :=
  {| list_graphql_apis := fun token a =>
       let k := page_of token in
       (Ok (ListApisResponse
              (Some (List.nth k (api_pages a) []))
              (if (S k <? List.length (api_pages a))%nat
               then Some (marks (S k)) else None)), a);
     create_graphql_api := fun kw a =>
       let api := GraphqlApi (kw_name kw) "api-new" "arn:aws:appsync:api-new" in
       (Ok api, set_pages a (api_pages a ++ [[api]]));
     start_schema_creation := fun _ _ a => (Ok tt, a);
     get_schema_creation_status := fun _ a =>
       match schema_pending a with
       | O => (Ok (SchemaStatus (Some (schema_result a)) (Some "done")), a)
       | S n => (Ok (SchemaStatus (Some "PROCESSING") None), set_pending a n)
       end;
     create_api_key := fun _ _ expires a => (Ok (ApiKey "da2-demo" expires), a);
     list_data_sources := fun _ a =>
       (Ok (ListDsResponse (Some (sources a)) None), a);
     create_data_source := fun req a =>
       let d := DataSource (dsr_name req) (dsr_type req) "arn:aws:appsync:ds-new" in
       (Ok d, set_sources a (sources a ++ [d]));
     update_resolver := fun req a =>
       if List.existsb (same_key (resolver_key req)) (resolvers a)
       then (Ok tt, a)
       else (Raise (Exn NotFoundException "No resolver found"), a);
     create_resolver := fun req a =>
       (Ok tt, set_resolvers a (resolvers a ++ [resolver_key req]));
     update_function := fun req a =>
       if List.existsb (String.eqb (fr_name req)) (functions a)
       then (Ok (FunctionConfiguration (fr_name req) (fr_name req)), a)
       else (Raise (Exn NotFoundException "Function not found"), a);
     create_function_call := fun req a =>
       (Ok (FunctionConfiguration "fn-new" (fr_name req)),
        set_functions a (functions a ++ [fr_name req])) |}.

Definition activate (name : string) (t : table_description) : table_description :=
  if String.eqb (tbl_name t) name
  then TableDescription (tbl_name t) "ACTIVE" (tbl_arn t)
  else t.

Definition dynamodb (region : string) : dynamodb_client account :=
  {| describe_table := fun name a =>
       match List.find (fun t => String.eqb (tbl_name t) name) (tables a) with
       | Some t => (Ok t, a)
       | None => (Raise (Exn ResourceNotFoundException "Table not found"), a)
       end;
     create_table := fun req a =>
       let t := TableDescription (TableName req) "CREATING"
                  ("arn:aws:dynamodb:" ++ region ++ ":000000000000:table/"
                   ++ TableName req) in
       (Ok t, set_tables a (tables a ++ [t]));
     wait_table_exists := fun name a =>
       (Ok tt, set_tables a (List.map (activate name) (tables a))) |}.

Definition sns (region : string) : sns_client account :=
  {| create_topic := fun name a =>
       match topic_fault a with
       | Some e => (Raise e, a)
       | None => (Ok ("arn:aws:sns:" ++ region ++ ":000000000000:" ++ name), a)
       end;
     list_topics := fun a => (Ok (topics a), a) |}.

Definition sqs (region : string) : sqs_client account :=
  {| create_queue := fun name _ a =>
       match queue_fault a with
       | Some e => (Raise e, a)
       | None => (Ok ("https://sqs." ++ region ++ ".amazonaws.com/000000000000/"
                      ++ name), a)
       end;
     get_queue_attributes := fun url _ a =>
       (Ok ("arn:aws:sqs:" ++ region ++ ":000000000000:"
            ++ SnsSqs.queue_name_of url), a);
     list_queues := fun prefix a =>
       (Ok (ListQueuesResponse
              (Some (List.filter
                       (fun u => String.prefix prefix (SnsSqs.queue_name_of u))
                       (queues a)))), a) |}.

Definition env : environment account :=
  {| read_bytes := fun _ a => (Ok "type Query { ping: String }", a);
     utc_now := clock;
     sleep := fun seconds a => set_clock a (clock a + seconds * 1000000) |}.

(** Nothing provisioned yet; the clock reads 2025-11-03T00:00:00.5Z. *)
Definition fresh : account :=
  Account [] [] [] [] [] 0 "SUCCESS" [] None [] None 1762128000500000.

(** Two pages of APIs, the workshop API on the second. *)
Definition workshop_api : graphql_api :=
  GraphqlApi "ghc25-anna-0315" "api-7" "arn:aws:appsync:api-7".

Definition two_pages : account :=
  set_pages fresh
    [[GraphqlApi "other" "api-1" "arn:aws:appsync:api-1"]; [workshop_api]].

(** Topics and queues whose names extend the workshop's, listed first, and
    creation calls refused because the resource exists with other settings. *)
Definition crowded : account :=
  Account [] [] [] [] [] 0 "SUCCESS"
    ["arn:aws:sns:us-east-1:000000000000:ghc25-anna-0315-price-changes-archive";
     "arn:aws:sns:us-east-1:000000000000:ghc25-anna-0315-price-changes"]
    (Some (Exn (ServiceFault "InvalidParameter")
             "Invalid parameter: Tags Reason: Topic already exists with different tags"))
    ["https://sqs.us-east-1.amazonaws.com/000000000000/ghc25-anna-0315-price-processing-dlq";
     "https://sqs.us-east-1.amazonaws.com/000000000000/ghc25-anna-0315-price-processing"]
    (Some (Exn (ServiceFault "QueueNameExists")
             "A queue already exists with the same name and a different value for attribute VisibilityTimeout"))
    1762128000500000.

(** The schema compiler answers NOT_APPLICABLE at once. *)
Definition not_applicable : account :=
  Account [] [] [] [] [] 0 "NOT_APPLICABLE" [] None [] None 1762128000500000.

(** The schema compiler stays busy for forty polls. *)
Definition stuck : account := set_pending fresh 40.

End Demo.


(** ** helpers_env.py: the region *)

Module Region.





End Region.

(** ** More vocabulary *)

Module Measures.

(** The seconds a run has slept, by its log. *)
Fixpoint total_sleep (l : list event) : Z :=
  match l with
  | [] => 0
  | Sleep seconds :: rest => seconds + total_sleep rest
  | _ :: rest => total_sleep rest
  end.

(** How often a character occurs in a string. *)
Fixpoint count_char (c : ascii) (s : string) : nat :=
  match s with
  | EmptyString => 0
  | String d r => (if Ascii.eqb d c then 1 else 0) + count_char c r
  end.

(** The string has no such character. *)
Definition free_of (c : ascii) (s : string) : Prop := count_char c s = 0%nat.

Definition is_listing (e : event) : bool :=
  match e with
  | ListGraphqlApis _ => true
  | _ => false
  end.

End Measures.

(** ** Services that misbehave *)

Module Outage.

(** Every call is refused with the same fault. *)
Definition appsync (W : Type) (e : exn) : appsync_client W :=
  {| list_graphql_apis := fun _ w => (Raise e, w);
     create_graphql_api := fun _ w => (Raise e, w);
     start_schema_creation := fun _ _ w => (Raise e, w);
     get_schema_creation_status := fun _ w => (Raise e, w);
     create_api_key := fun _ _ _ w => (Raise e, w);
     list_data_sources := fun _ w => (Raise e, w);
     create_data_source := fun _ w => (Raise e, w);
     update_resolver := fun _ w => (Raise e, w);
     create_resolver := fun _ w => (Raise e, w);
     update_function := fun _ w => (Raise e, w);
     create_function_call := fun _ w => (Raise e, w) |}.

Definition dynamodb (W : Type) (e : exn) (region : string) : dynamodb_client W :=
  {| describe_table := fun _ w => (Raise e, w);
     create_table := fun _ w => (Raise e, w);
     wait_table_exists := fun _ w => (Raise e, w) |}.

Definition sns (W : Type) (e : exn) (region : string) : sns_client W :=
  {| create_topic := fun _ w => (Raise e, w);
     list_topics := fun w => (Raise e, w) |}.

Definition sqs (W : Type) (e : exn) (region : string) : sqs_client W :=
  {| create_queue := fun _ _ w => (Raise e, w);
     get_queue_attributes := fun _ _ w => (Raise e, w);
     list_queues := fun _ w => (Raise e, w) |}.

(** No file can be read. *)
Definition no_files (W : Type) (e : exn) (now : Z) : environment W :=
  {| read_bytes := fun _ w => (Raise e, w);
     utc_now := fun _ => now;
     sleep := fun _ w => w |}.

Definition access_denied : exn :=
  Exn (ServiceFault "AccessDeniedException") "User is not authorized to perform this action".

Definition file_not_found : exn :=
  Exn (ServiceFault "FileNotFoundError") "No such file or directory: 'schema.graphql'".

(** The API listing always answers an empty page and a token for more. *)
Definition endless : appsync_client Demo.account :=
  {| list_graphql_apis := fun _ a =>
       (Ok (ListApisResponse (Some []) (Some "more")), a);
     create_graphql_api := create_graphql_api Demo.appsync;
     start_schema_creation := start_schema_creation Demo.appsync;
     get_schema_creation_status := get_schema_creation_status Demo.appsync;
     create_api_key := create_api_key Demo.appsync;
     list_data_sources := list_data_sources Demo.appsync;
     create_data_source := create_data_source Demo.appsync;
     update_resolver := update_resolver Demo.appsync;
     create_resolver := create_resolver Demo.appsync;
     update_function := update_function Demo.appsync;
     create_function_call := create_function_call Demo.appsync |}.

(** Reading works, starting the schema creation is refused. *)
Definition no_schema : appsync_client Demo.account :=
  {| list_graphql_apis := list_graphql_apis Demo.appsync;
     create_graphql_api := create_graphql_api Demo.appsync;
     start_schema_creation := fun _ _ a => (Raise access_denied, a);
     get_schema_creation_status := get_schema_creation_status Demo.appsync;
     create_api_key := create_api_key Demo.appsync;
     list_data_sources := list_data_sources Demo.appsync;
     create_data_source := create_data_source Demo.appsync;
     update_resolver := update_resolver Demo.appsync;
     create_resolver := create_resolver Demo.appsync;
     update_function := update_function Demo.appsync;
     create_function_call := create_function_call Demo.appsync |}.

End Outage.

(** ** Calls outside the provisioner's log *)

(** The seeding and subscription helpers call operations the provisioner
    never does; their runs keep a log of their own kind of events. *)
Module Script.

Section Generic.
Context {Ev W : Type}.

Definition script (A : Type) : Type := W * list Ev -> result A * (W * list Ev).

Definition ret {A : Type} (a : A) : script A := fun s => (Ok a, s).

Definition bind {A B : Type} (m : script A) (k : A -> script B) : script B :=
  fun s =>
    match m s with
    | (Ok a, s') => k a s'
    | (Raise e, s') => (Raise e, s')
    end.

(** Issue a call: run the handler and record the event. *)
Definition call {A : Type} (ev : Ev) (h : handler W A) : script A :=
  fun s =>
    let (r, w) := h (fst s) in (r, (w, (snd s ++ [ev])%list)).

(** Read something off the state without a call. *)
Definition observe {A : Type} (f : W -> A) : script A :=
  fun s => (Ok (f (fst s)), s).

Definition run {A : Type} (m : script A) (w : W) : result A * (W * list Ev) :=
  m (w, []).

End Generic.

End Script.

Declare Scope script_scope.
Delimit Scope script_scope with script.
Notation "x <- m ;; k" := (Script.bind m (fun x => k))
  (at level 61, m at next level, right associativity) : script_scope.
Notation "m ;;; k" := (Script.bind m (fun _ => k))
  (at level 61, right associativity) : script_scope.

(** ** [json.dumps] on strings, lists and dicts *)

Module Json.

#[warnings="-register-all"]
Inductive value : Type :=
| JString (s : string)
| JArray (items : list value)
| JObject (fields : list (string * value)).

Definition quote_mark : ascii := ascii_of_nat 34.
Definition backslash : ascii := ascii_of_nat 92.

Definition hex_digit (n : nat) : ascii :=
  List.nth n (list_ascii_of_string "0123456789abcdef") "0"%char.

(** With [ensure_ascii], everything outside space..~ is escaped, and so are
    the quote mark and the backslash. *)
Definition escape_char (c : ascii) : string :=
  let n := nat_of_ascii c in
  if (n =? 34)%nat then String backslash (String quote_mark EmptyString)
  else if (n =? 92)%nat then String backslash (String backslash EmptyString)
  else if (n =? 10)%nat then String backslash "n"
  else if (n =? 13)%nat then String backslash "r"
  else if (n =? 9)%nat then String backslash "t"
  else if (n =? 8)%nat then String backslash "b"
  else if (n =? 12)%nat then String backslash "f"
  else if (n <? 32)%nat || (126 <? n)%nat then
    String backslash
      ("u00" ++ String (hex_digit (n / 16)) (String (hex_digit (n mod 16)) EmptyString))
  else String c EmptyString.

Fixpoint escape (s : string) : string :=
  match s with
  | EmptyString => EmptyString
  | String c r => escape_char c ++ escape r
  end.

Definition quoted (s : string) : string :=
  String quote_mark (escape s ++ String quote_mark EmptyString).

Fixpoint join (sep : string) (parts : list string) : string :=
  match parts with
  | [] => EmptyString
  | [x] => x
  | x :: rest => x ++ sep ++ join sep rest
  end.

(** The default separators: [", "] between items, [": "] after a key. *)
Fixpoint dumps (v : value) : string :=
  match v with
  | JString s => quoted s
  | JArray items => "[" ++ join ", " (List.map dumps items) ++ "]"
  | JObject fields =>
      "{" ++ join ", "
               (List.map (fun kv => quoted (fst kv) ++ ": " ++ dumps (snd kv)) fields)
          ++ "}"
  end.

End Json.

(** ** helpers_ddb_pricing.py: seeding *)

Module Seeding.
Local Open Scope script_scope.

(** A DynamoDB item: attribute name, type tag, value. *)
Definition item : Type := list (string * (string * string)).

Inductive data_event : Type :=
| PutItem (table : string) (i : item).

Record dynamodb_data (W : Type) : Type := DynamoDbData
  { put_item : string -> item -> handler W unit }.
Arguments put_item {W} d.

(** [iso()] reads the clock as [strftime("%Y-%m-%dT%H:%M:%SZ")] renders it. *)
Record wall_clock (W : Type) : Type := WallClock
  { utcnow_iso : W -> string }.
Arguments utcnow_iso {W} w.

(** The rows of [seed_cost]: vendor, cost as [f"{cost:.2f}"] prints it
    (865.00 and 848.50), currency. *)
Definition cost_rows : list (string * string * string) :=
  [("AcmeSupply", "865.00", "USD"); ("GlobalParts", "848.50", "USD")].

Definition cost_item (asin vendor cost ccy stamp : string) : item :=
  [("asinVendor", ("S", asin ++ "#" ++ vendor));
   ("vendorId", ("S", vendor));
   ("cost", ("N", cost));
   ("currency", ("S", ccy));
   ("updatedAt", ("S", stamp))].

Section WithWorld.
Context {W : Type}.

Definition iso (C : wall_clock W) : Script.script (Ev := data_event) string :=
  Script.observe (utcnow_iso C).

(** The loop [for vendor, cost, ccy in rows] of [seed_cost]. *)
Fixpoint put_rows (ddb : dynamodb_data W) (C : wall_clock W)
    (table_name asin : string) (rows : list (string * string * string))
  : Script.script (Ev := data_event) (W := W) unit :=
  match rows with
  | [] => Script.ret tt
  | (vendor, cost, ccy) :: rest =>
      stamp <- iso C ;;
      let i := cost_item asin vendor cost ccy stamp in
      Script.call (PutItem table_name i) (put_item ddb table_name i) ;;;
      put_rows ddb C table_name asin rest
  end.

Definition seed_cost (boto3_dynamodb : string -> dynamodb_data W)
    (C : wall_clock W) (table_name region asin : string)
  : Script.script (Ev := data_event) (W := W) unit :=
  put_rows (boto3_dynamodb region) C table_name asin cost_rows.

End WithWorld.

(** The value of an attribute of an item. *)
Fixpoint attribute (name : string) (i : item) : option (string * string) :=
  match i with
  | [] => None
  | (k, v) :: rest => if String.eqb k name then Some v else attribute name rest
  end.

(** A table in memory: the items put so far, with a clock that counts
    them, and a write capacity after which puts are throttled. *)
Definition memory (capacity : nat) (region : string) : dynamodb_data (list item) :=
  {| put_item := fun _ i store =>
       if (List.length store <? capacity)%nat
       then (Ok tt, (store ++ [i])%list)
       else (Raise (Exn (ServiceFault "ProvisionedThroughputExceededException")
                      "Rate exceeded"), store) |}.

Definition counting_clock : wall_clock (list item) :=
  {| utcnow_iso := fun store =>
       match List.length store with
       | O => "2025-11-03T00:00:00Z"
       | _ => "2025-11-03T00:00:01Z"
       end |}.

End Seeding.

(** ** helpers_sns_sqs.py: the subscription *)

Module Subscription.
Local Open Scope script_scope.

Inductive messaging_event : Type :=
| SetQueueAttributes (url : string) (attributes : list (string * string))
| Subscribe (topic_arn protocol endpoint : string).

Record sqs_policy_client (W : Type) : Type := SqsPolicyClient
  { set_queue_attributes : string -> list (string * string) -> handler W unit }.
Arguments set_queue_attributes {W} s.

(** [subscribe] stands for the call and the ["SubscriptionArn"] of its
    answer. *)
Record sns_subscribe_client (W : Type) : Type := SnsSubscribeClient
  { subscribe : string -> string -> string -> handler W string }.
Arguments subscribe {W} s.

(** The policy that lets the topic send to the queue. *)
Definition policy (topic_arn queue_arn : string) : Json.value :=
  Json.JObject
    [("Version", Json.JString "2012-10-17");
     ("Statement",
      Json.JArray
        [Json.JObject
           [("Effect", Json.JString "Allow");
            ("Principal", Json.JObject [("Service", Json.JString "sns.amazonaws.com")]);
            ("Action", Json.JString "sqs:SendMessage");
            ("Resource", Json.JString queue_arn);
            ("Condition",
             Json.JObject
               [("ArnEquals",
                 Json.JObject [("aws:SourceArn", Json.JString topic_arn)])])]])].

Section WithWorld.
Context {W : Type}.

Definition setup_sns_sqs_subscription
    (boto3_sns : string -> sns_subscribe_client W)
    (boto3_sqs : string -> sqs_policy_client W)
    (topic_arn queue_arn queue_url region : string)
  : Script.script (Ev := messaging_event) (W := W) string :=
  let sns := boto3_sns region in
  let sqs := boto3_sqs region in
  let attributes := [("Policy", Json.dumps (policy topic_arn queue_arn))] in
  Script.call (SetQueueAttributes queue_url attributes)
              (set_queue_attributes sqs queue_url attributes) ;;;
  subscription_arn <- Script.call (Subscribe topic_arn "sqs" queue_arn)
                                  (subscribe sns topic_arn "sqs" queue_arn) ;;
  Script.ret subscription_arn.

End WithWorld.

(** Characters [json.dumps] leaves as they are. *)
Definition plain_char (c : ascii) : bool :=
  let n := nat_of_ascii c in
  (32 <=? n)%nat && (n <=? 126)%nat && negb (n =? 34)%nat && negb (n =? 92)%nat.

(** A queue service that refuses policies, and a topic service that
    records nothing but answers. *)
Definition sqs_refusing (e : exn) (region : string) : sqs_policy_client unit :=
  {| set_queue_attributes := fun _ _ w => (Raise e, w) |}.

Definition sqs_accepting (region : string) : sqs_policy_client unit :=
  {| set_queue_attributes := fun _ _ w => (Ok tt, w) |}.

Definition sns_accepting (region : string) : sns_subscribe_client unit :=
  {| subscribe := fun topic _ _ w => (Ok (topic ++ ":subscription-1"), w) |}.

End Subscription.

(** ** The policy text, spelt out *)

Module PolicyText.

Definition q : string := String Json.quote_mark EmptyString.

(** The text up to and including the quote mark that opens the value of
    Resource. *)
Definition before_queue : string :=
  "{" ++ q ++ "Version" ++ q ++ ": " ++ q ++ "2012-10-17" ++ q ++ ", "
  ++ q ++ "Statement" ++ q ++ ": [{"
  ++ q ++ "Effect" ++ q ++ ": " ++ q ++ "Allow" ++ q ++ ", "
  ++ q ++ "Principal" ++ q ++ ": {" ++ q ++ "Service" ++ q ++ ": "
  ++ q ++ "sns.amazonaws.com" ++ q ++ "}, "
  ++ q ++ "Action" ++ q ++ ": " ++ q ++ "sqs:SendMessage" ++ q ++ ", "
  ++ q ++ "Resource" ++ q ++ ": " ++ q.

(** From the quote mark that closes the value of Resource up to the one
    that opens the value of aws:SourceArn. *)
Definition between : string :=
  q ++ ", " ++ q ++ "Condition" ++ q ++ ": {" ++ q ++ "ArnEquals" ++ q ++ ": {"
  ++ q ++ "aws:SourceArn" ++ q ++ ": " ++ q.

(** The closing quote mark, braces and bracket. *)
Definition after_topic : string := q ++ "}}}]}".

End PolicyText.
(** * Properties *)

(** ** Characters and strings *)

Module PyStrFacts.
Import PyStr.

Ltac by_cases_on_char c :=
  destruct c as [[] [] [] [] [] [] [] []]; vm_compute in *; congruence.

Lemma allowed_not_upper (c : ascii) : allowed c = true -> is_upper c = false.
Proof. intros H. by_cases_on_char c. Qed.

Lemma allowed_not_space (c : ascii) : allowed c = true -> is_space c = false.
Proof. intros H. by_cases_on_char c. Qed.

Lemma allowed_not_blank (c : ascii) : allowed c = true -> Ascii.eqb c " " = false.
Proof. intros H. by_cases_on_char c. Qed.

Lemma allowed_alpha_lower (c : ascii) :
  allowed c = true -> isalpha c = true -> is_lower c = true.
Proof. intros H1 H2. by_cases_on_char c. Qed.

Lemma lower_is_alpha (c : ascii) : is_lower c = true -> isalpha c = true.
Proof. unfold isalpha. intros ->. apply orb_true_r. Qed.

Lemma all_chars_filter (p : ascii -> bool) (s : string) :
  all_chars p (filter_chars p s) = true.
Proof.
  induction s as [|c r IH]; simpl; [reflexivity|].
  destruct (p c) eqn:Hc; simpl; [rewrite Hc|]; auto.
Qed.

Lemma starts_collapse (s : string) :
  starts_with_hyphen (collapse_hyphens s) = starts_with_hyphen s.
Proof.
  induction s as [|c r IH]; simpl; [reflexivity|].
  destruct (is_hyphen c) eqn:Hc; simpl; [|exact Hc].
  destruct (starts_with_hyphen r) eqn:Hr; simpl; [|exact Hc].
  rewrite IH. reflexivity.
Qed.

Lemma all_chars_collapse (p : ascii -> bool) (s : string) :
  all_chars p s = true -> all_chars p (collapse_hyphens s) = true.
Proof.
  induction s as [|c r IH]; simpl; [auto|].
  intros H. apply andb_true_iff in H as [Hc Hr].
  destruct (is_hyphen c && starts_with_hyphen r); simpl; [|rewrite Hc]; auto.
Qed.

Lemma all_chars_lstrip (p q : ascii -> bool) (s : string) :
  all_chars p s = true -> all_chars p (lstrip q s) = true.
Proof.
  induction s as [|c r IH]; simpl; [auto|].
  intros H. destruct (q c); [|exact H].
  apply andb_true_iff in H as [_ Hr]. auto.
Qed.

Lemma all_chars_rstrip (p q : ascii -> bool) (s : string) :
  all_chars p s = true -> all_chars p (rstrip q s) = true.
Proof.
  induction s as [|c r IH]; simpl; [auto|].
  intros H. apply andb_true_iff in H as [Hc Hr]. specialize (IH Hr).
  destruct (rstrip q r) as [|d t].
  - destruct (q c); simpl; [|rewrite Hc]; reflexivity.
  - change (all_chars p (String c (String d t))) with (p c && all_chars p (String d t)).
    rewrite Hc, IH. reflexivity.
Qed.

Lemma no_double_collapse (s : string) :
  has_double_hyphen (collapse_hyphens s) = false.
Proof.
  induction s as [|c r IH]; simpl; [reflexivity|].
  destruct (is_hyphen c && starts_with_hyphen r) eqn:H; [exact IH|].
  simpl. rewrite starts_collapse, H, IH. reflexivity.
Qed.

Lemma no_double_lstrip (p : ascii -> bool) (s : string) :
  has_double_hyphen s = false -> has_double_hyphen (lstrip p s) = false.
Proof.
  induction s as [|c r IH]; simpl; [auto|].
  intros H. destruct (p c); [|exact H].
  apply orb_false_iff in H as [_ Hr]. auto.
Qed.

Lemma rstrip_head (p : ascii -> bool) (s : string) (d : ascii) (t : string) :
  rstrip p s = String d t -> exists t', s = String d t'.
Proof.
  destruct s as [|c r]; simpl; [discriminate|].
  destruct (rstrip p r); [destruct (p c)|]; intros H; inversion H; subst; eauto.
Qed.

Lemma first_is_rstrip (p q : ascii -> bool) (s : string) :
  first_is p (rstrip q s) = true -> first_is p s = true.
Proof.
  destruct (rstrip q s) as [|d t] eqn:E; simpl; [discriminate|].
  apply rstrip_head in E as [t' ->]. auto.
Qed.

Lemma no_double_rstrip (p : ascii -> bool) (s : string) :
  has_double_hyphen s = false -> has_double_hyphen (rstrip p s) = false.
Proof.
  induction s as [|c r IH]; simpl; [auto|].
  intros H. apply orb_false_iff in H as [Hc Hr]. specialize (IH Hr).
  destruct (rstrip p r) as [|d t] eqn:E.
  - destruct (p c); simpl; [reflexivity|].
    rewrite andb_false_r. reflexivity.
  - apply rstrip_head in E as [t' ->].
    change (has_double_hyphen (String c (String d t)))
      with ((is_hyphen c && is_hyphen d) || has_double_hyphen (String d t)).
    simpl in Hc. rewrite Hc, IH. reflexivity.
Qed.

Lemma first_is_lstrip (p : ascii -> bool) (s : string) :
  first_is p (lstrip p s) = false.
Proof.
  induction s as [|c r IH]; simpl; [reflexivity|].
  destruct (p c) eqn:Hc; simpl; auto.
Qed.

Lemma last_is_rstrip (p : ascii -> bool) (s : string) :
  last_is p (rstrip p s) = false.
Proof.
  induction s as [|c r IH]; simpl; [reflexivity|].
  destruct (rstrip p r) as [|d t].
  - destruct (p c) eqn:Hc; simpl; auto.
  - exact IH.
Qed.

Lemma first_is_strip (p : ascii -> bool) (s : string) :
  first_is p (strip p s) = false.
Proof.
  unfold strip. destruct (first_is p (rstrip p (lstrip p s))) eqn:E; [|reflexivity].
  apply first_is_rstrip in E. rewrite first_is_lstrip in E. discriminate.
Qed.

(** Fixed points of the stages. *)

Lemma map_chars_id (f : ascii -> ascii) (p : ascii -> bool) (s : string) :
  (forall c, p c = true -> f c = c) ->
  all_chars p s = true -> map_chars f s = s.
Proof.
  intros Hf. induction s as [|c r IH]; simpl; [auto|].
  intros H. apply andb_true_iff in H as [Hc Hr].
  rewrite (Hf c Hc), (IH Hr). reflexivity.
Qed.

Lemma filter_chars_id (p : ascii -> bool) (s : string) :
  all_chars p s = true -> filter_chars p s = s.
Proof.
  induction s as [|c r IH]; simpl; [auto|].
  intros H. apply andb_true_iff in H as [Hc Hr].
  rewrite Hc, (IH Hr). reflexivity.
Qed.

Lemma collapse_id (s : string) :
  has_double_hyphen s = false -> collapse_hyphens s = s.
Proof.
  induction s as [|c r IH]; simpl; [auto|].
  intros H. apply orb_false_iff in H as [Hc Hr].
  rewrite Hc, (IH Hr). reflexivity.
Qed.

Lemma lstrip_id (p : ascii -> bool) (s : string) :
  first_is p s = false -> lstrip p s = s.
Proof. destruct s as [|c r]; simpl; [auto|]. intros ->. reflexivity. Qed.

Lemma rstrip_id (p : ascii -> bool) (s : string) :
  last_is p s = false -> rstrip p s = s.
Proof.
  induction s as [|c r IH]; simpl; [auto|].
  destruct r as [|d t].
  - simpl. intros ->. reflexivity.
  - intros H. rewrite (IH H). reflexivity.
Qed.

Lemma strip_id (p : ascii -> bool) (s : string) :
  first_is p s = false -> last_is p s = false -> strip p s = s.
Proof.
  intros H1 H2. unfold strip. rewrite (lstrip_id _ _ H1). apply rstrip_id, H2.
Qed.

Lemma first_is_excluded (p q : ascii -> bool) (s : string) :
  (forall c, q c = true -> p c = false) ->
  all_chars q s = true -> first_is p s = false.
Proof.
  intros Hpq. destruct s as [|c r]; simpl; [auto|].
  intros H. apply andb_true_iff in H as [Hc _]. auto.
Qed.

Lemma last_is_excluded (p q : ascii -> bool) (s : string) :
  (forall c, q c = true -> p c = false) ->
  all_chars q s = true -> last_is p s = false.
Proof.
  intros Hpq. induction s as [|c r IH]; simpl; [auto|].
  intros H. apply andb_true_iff in H as [Hc Hr].
  destruct r as [|d t]; auto.
Qed.

Lemma last_is_app (p : ascii -> bool) (a : string) (c : ascii) (r : string) :
  last_is p (a ++ String c r) = last_is p (String c r).
Proof.
  induction a as [|x a IH]; [reflexivity|].
  simpl append. simpl in IH.
  destruct (a ++ String c r) eqn:E.
  - destruct a; discriminate.
  - simpl. simpl in IH. exact IH.
Qed.

Lemma length_take (n : nat) (s : string) :
  String.length (take n s) = Nat.min n (String.length s).
Proof.
  revert s. induction n as [|n IH]; intros [|c r]; simpl; auto.
Qed.

Lemma length_append (a b : string) :
  String.length (a ++ b) = (String.length a + String.length b)%nat.
Proof. induction a as [|c a IH]; simpl; auto. Qed.

End PyStrFacts.

(** ** The naming utility *)

Module EnvFacts.
Import PyStr PyStrFacts Vocabulary Env.

Lemma sanitize_name_unfold (name : string) :
  sanitize_name name =
  let t := sanitize_core name in
  if is_empty t || negb (first_is isalpha t) then "u-" ++ t else t.
Proof. reflexivity. Qed.

Lemma core_allowed (name : string) : all_chars allowed (sanitize_core name) = true.
Proof.
  unfold sanitize_core, strip.
  apply all_chars_rstrip, all_chars_lstrip, all_chars_collapse, all_chars_filter.
Qed.

Lemma core_no_double (name : string) :
  has_double_hyphen (sanitize_core name) = false.
Proof.
  unfold sanitize_core, strip.
  apply no_double_rstrip, no_double_lstrip, no_double_collapse.
Qed.

Lemma core_first (name : string) :
  starts_with_hyphen (sanitize_core name) = false.
Proof. apply (first_is_strip is_hyphen). Qed.

Lemma core_last (name : string) :
  ends_with_hyphen (sanitize_core name) = false.
Proof. apply (last_is_rstrip is_hyphen). Qed.

Lemma sanitize_name_shape (name : string) : sanitized name (sanitize_name name).
Proof.
  rewrite sanitize_name_unfold. cbv zeta.
  destruct (sanitize_core name) as [|c t] eqn:E.
  - apply sanitized_marker_only, E.
  - cbn [is_empty first_is orb]. destruct (isalpha c) eqn:Hc; cbn [negb].
    + apply sanitized_plain; assumption.
    + apply sanitized_marked; assumption.
Qed.

Lemma sanitize_name_nonempty (name : string) :
  (1 <= String.length (sanitize_name name))%nat.
Proof.
  destruct (sanitize_name_shape name); simpl; lia.
Qed.

(** Everything the sanitizer promises, except at the end of the bare marker. *)
Lemma sanitize_name_safe (name : string) :
  let r := sanitize_name name in
  all_chars allowed r = true
  /\ first_is is_lower r = true
  /\ starts_with_hyphen r = false
  /\ has_double_hyphen r = false
  /\ (ends_with_hyphen r = false \/ r = "u-").
Proof.
  cbv zeta.
  pose proof (core_allowed name) as Ha.
  pose proof (core_no_double name) as Hd.
  pose proof (core_first name) as Hf.
  pose proof (core_last name) as Hl.
  destruct (sanitize_name_shape name) as [E|c t E Hc|c t E Hc].
  - repeat split; auto.
  - rewrite E in Ha, Hd, Hf, Hl.
    repeat split.
    + change (all_chars allowed ("u-" ++ String c t))
        with (allowed "u" && (allowed "-" && all_chars allowed (String c t))).
      rewrite Ha. reflexivity.
    + simpl in Hf, Hd. rewrite Hf in Hd. simpl in Hd. simpl. rewrite Hf. simpl. exact Hd.
    + left. exact Hl.
  - rewrite E in Ha, Hd, Hf, Hl.
    repeat split; auto.
    simpl in Ha. apply andb_true_iff in Ha as [Ha _].
    simpl. apply allowed_alpha_lower; assumption.
Qed.

(** A name in canonical form is left alone. *)
Lemma sanitize_name_fixed (r : string) :
  all_chars allowed r = true ->
  first_is is_lower r = true ->
  has_double_hyphen r = false ->
  ends_with_hyphen r = false ->
  sanitize_name r = r.
Proof.
  intros Ha Hf Hd Hl.
  assert (Hcore : sanitize_core r = r).
  { unfold sanitize_core.
    replace (lower r) with r.
    2:{ symmetry. apply (map_chars_id lower_char allowed); auto.
        intros c Hc. unfold lower_char. rewrite (allowed_not_upper c Hc). reflexivity. }
    rewrite (strip_id is_space r).
    2:{ apply (first_is_excluded is_space allowed); auto using allowed_not_space. }
    2:{ apply (last_is_excluded is_space allowed); auto using allowed_not_space. }
    unfold replace_char.
    rewrite (map_chars_id _ allowed r); auto.
    2:{ intros c Hc. rewrite (allowed_not_blank c Hc). reflexivity. }
    rewrite (filter_chars_id allowed r Ha), (collapse_id r Hd).
    apply strip_id; auto.
    destruct r as [|c t]; [reflexivity|]. simpl in Hf |- *.
    destruct c as [[] [] [] [] [] [] [] []]; vm_compute in *; congruence. }
  rewrite sanitize_name_unfold, Hcore. cbv zeta.
  destruct r as [|c t]; [discriminate|].
  simpl in Hf. cbn [is_empty first_is orb]. rewrite (lower_is_alpha c Hf). reflexivity.
Qed.

Lemma take_all (s : string) : take (String.length s) s = s.
Proof. induction s as [|c r IH]; simpl; [|rewrite IH]; reflexivity. Qed.

Lemma length_api_name_of (prefix base suffix : string) :
  String.length (api_name_of prefix base suffix)
  = (String.length prefix + String.length base + String.length suffix + 2)%nat.
Proof.
  unfold api_name_of. repeat (rewrite length_append; simpl). lia.
Qed.

End EnvFacts.

Import PyStr Vocabulary.

(** C4, as stated, fails: a name with no letter and no digit sanitizes to
    the bare marker, which ends in a hyphen. *)
Lemma sanitize_name_trailing_hyphen :
  Env.sanitize_name "" = "u-"
  /\ ends_with_hyphen (Env.sanitize_name "") = true
  /\ well_formed_name (Env.sanitize_name "") = false.
Proof. repeat split. Qed.

(** C4, amended: the output of [sanitize_name] contains only lowercase
    letters, digits and hyphens, starts with a letter, has no leading hyphen
    and no two consecutive hyphens; it has no trailing hyphen either, unless
    it is the bare marker ["u-"]. *)
Theorem sanitize_name_output (name : string) :
  all_chars allowed (Env.sanitize_name name) = true
  /\ first_is is_lower (Env.sanitize_name name) = true
  /\ starts_with_hyphen (Env.sanitize_name name) = false
  /\ has_double_hyphen (Env.sanitize_name name) = false
  /\ (ends_with_hyphen (Env.sanitize_name name) = false
      \/ Env.sanitize_name name = "u-").
Proof. exact (EnvFacts.sanitize_name_safe name). Qed.

(** C5, as stated, fails: sanitizing the empty name twice drops the hyphen
    of the marker. *)
Lemma sanitize_name_not_idempotent :
  Env.sanitize_name (Env.sanitize_name "") <> Env.sanitize_name "".
Proof. vm_compute. discriminate. Qed.

(** C5, amended: [sanitize_name] is idempotent on every input whose
    sanitized form is not the bare marker ["u-"]. *)
Theorem sanitize_name_idempotent (name : string) :
  Env.sanitize_name name <> "u-" ->
  Env.sanitize_name (Env.sanitize_name name) = Env.sanitize_name name.
Proof.
  intros Hne.
  destruct (EnvFacts.sanitize_name_safe name) as (Ha & Hf & _ & Hd & [Hl | Hl]).
  - apply EnvFacts.sanitize_name_fixed; assumption.
  - contradiction.
Qed.

Lemma sanitize_name_idempotent_witness :
  Env.sanitize_name "My Cool API!!" <> "u-"
  /\ Env.sanitize_name (Env.sanitize_name "My Cool API!!")
     = Env.sanitize_name "My Cool API!!".
Proof.
  split.
  - vm_compute. discriminate.
  - apply (sanitize_name_idempotent "My Cool API!!"). vm_compute. discriminate.
Defined.

(** C6, as stated, fails: with a maximum below what the prefix, the suffix
    and one character of the base need, the name is longer than the maximum. *)
Lemma build_api_name_too_long :
  ~ (Z.of_nat (String.length (fst (Env.build_api_name "My Cool API" "0315" "ghc25" 5)))
     <= 5)%Z.
Proof. vm_compute. intros H. apply H. reflexivity. Qed.

(** C6, amended: [build_api_name] returns the pair of the full name
    [prefix-base-suffix] and the base used in it; that base is the sanitized
    display name cut at its end, with at least its first character kept;
    prefix and suffix are never cut; and the full name is no longer than the
    maximum whenever the maximum leaves room for the prefix, the suffix, the
    two hyphens and one character of the base. *)
Theorem build_api_name_spec (display_name suffix prefix : string) (max_len : Z) :
  let full := fst (Env.build_api_name display_name suffix prefix max_len) in
  let cut := snd (Env.build_api_name display_name suffix prefix max_len) in
  full = Env.api_name_of prefix cut suffix
  /\ (exists k, (1 <= k)%nat /\ cut = take k (Env.sanitize_name display_name))
  /\ ((Z.of_nat (String.length prefix + String.length suffix + 3) <= max_len)%Z ->
      (Z.of_nat (String.length full) <= max_len)%Z).
Proof.
  cbv zeta. unfold Env.build_api_name.
  pose proof (EnvFacts.sanitize_name_nonempty display_name) as Hb.
  set (base := Env.sanitize_name display_name) in *.
  rewrite !EnvFacts.length_api_name_of.
  destruct (Z.gtb_spec
    (Z.of_nat (String.length prefix + String.length base + String.length suffix + 2))
    max_len) as [Hgt|Hle]; cbn [fst snd].
  - set (overflow := (Z.of_nat (String.length prefix + String.length base
                                + String.length suffix + 2) - max_len)%Z) in *.
    destruct (Z.ltb_spec overflow (Z.of_nat (String.length base))) as [Hlt|Hge].
    + unfold slice_to.
      destruct (Z.ltb_spec (- overflow) 0) as [_|Hneg]; [|lia].
      split; [reflexivity|]. split.
      * exists (Z.to_nat (Z.max 0 (Z.of_nat (String.length base) + - overflow))).
        split; [lia|reflexivity].
      * intros _. rewrite EnvFacts.length_api_name_of, PyStrFacts.length_take. lia.
    + unfold slice_to.
      destruct (Z.ltb_spec (Z.max 1 (Z.of_nat (String.length base) - overflow)) 0)
        as [Hneg|_]; [lia|].
      split; [reflexivity|]. split.
      * exists (Z.to_nat (Z.max 1 (Z.of_nat (String.length base) - overflow))).
        split; [lia|reflexivity].
      * intros Hroom. lia.
  - split; [reflexivity|]. split.
    + exists (String.length base). split; [exact Hb|].
      symmetry. apply EnvFacts.take_all.
    + intros _. rewrite EnvFacts.length_api_name_of. lia.
Qed.

Lemma build_api_name_spec_witness :
  (Z.of_nat (String.length "ghc25" + String.length "0315" + 3) <= 20)%Z
  /\ (Z.of_nat (String.length
        (fst (Env.build_api_name "My Cool API" "0315" "ghc25" 20))) <= 20)%Z.
Proof.
  split.
  - vm_compute. discriminate.
  - apply (build_api_name_spec "My Cool API" "0315" "ghc25" 20).
    vm_compute. discriminate.
Defined.

(** C7, as stated, fails: an empty first argument is rejected as well,
    although it is not the sentinel. *)
Lemma validate_identifiers_rejects_empty :
  ~ (raises (Env.validate_identifiers "" "0315")
     <-> ("" = "NAME" \/ "0315" = "MMDD")).
Proof.
  intros [H _].
  destruct H as [H | H]; [|discriminate|discriminate].
  eexists. reflexivity.
Qed.

(** C7, amended: [validate_identifiers] raises if and only if the first
    argument is empty or ["NAME"], or the second is empty or ["MMDD"]; for
    every other pair it returns. *)
Theorem validate_identifiers_raises_iff (first_name_prefix birth_mmdd : string) :
  raises (Env.validate_identifiers first_name_prefix birth_mmdd)
  <-> (first_name_prefix = "" \/ first_name_prefix = "NAME"
       \/ birth_mmdd = "" \/ birth_mmdd = "MMDD").
Proof.
  unfold Env.validate_identifiers, raises.
  destruct first_name_prefix as [|c r].
  - simpl. split; [auto|]. intros _. eexists. reflexivity.
  - cbn [is_empty orb].
    destruct (String.eqb_spec (String c r) "NAME") as [E|NE].
    + split; [auto|]. intros _. eexists. reflexivity.
    + destruct birth_mmdd as [|d t].
      * simpl. split; [auto|]. intros _. eexists. reflexivity.
      * cbn [is_empty orb].
        destruct (String.eqb_spec (String d t) "MMDD") as [E'|NE'].
        -- split; [auto|]. intros _. eexists. reflexivity.
        -- split.
           ++ intros [e He]. discriminate.
           ++ intros [H|[H|[H|H]]]; congruence.
Qed.

(** ** The provisioning monad *)

Module MonadFacts.
Import Vocabulary.

Section WithWorld.
Context {W : Type}.

Lemma call_run {A : Type} (ev : event) (h : handler W A) (s : run_state W) :
  call ev h s = (outcome_of (fst (h (world s))),
                 RunState (snd (h (world s))) (log s ++ [ev])).
Proof.
  unfold call. destruct (h (world s)) as [[a|e] w]; reflexivity.
Qed.

Lemma creation_calls_app (l1 l2 : list event) :
  creation_calls (l1 ++ l2) = (creation_calls l1 + creation_calls l2)%nat.
Proof.
  unfold creation_calls. rewrite List.filter_app, List.length_app. reflexivity.
Qed.

(** The shape all three attach helpers share. *)
Lemma try_update_then_create {A : Type} (U C : event) (hu hc : handler W A) (w : W) :
  update_then_create (hu w) hc U C
    (run (try_except (call U hu) AppSync.is_not_found (fun _ => call C hc)) w).
Proof.
  unfold update_then_create, run, try_except.
  rewrite call_run. cbn [world log app].
  destruct (hu w) as [[v|e] w1]; cbn [fst snd outcome_of].
  - repeat split; intros; try discriminate.
    congruence.
  - repeat split; intros x Hx; inversion Hx; subst; intros Hnf; rewrite Hnf.
    + reflexivity.
    + rewrite call_run. reflexivity.
Qed.

End WithWorld.

End MonadFacts.

(** ** Attaching resolvers and functions *)

(** C8: each of [upsert_js_resolver], [create_pipeline_resolver] and
    [create_function] first issues its update call; it issues the create call
    exactly when the update fails with the not-found signal, and then returns
    what the create call returns or raises what it raises; any other fault of
    the update call is raised unchanged, with no create call. *)
Theorem attach_update_then_create {W : Type} (client : appsync_client W) (w : W) :
  (forall api_id type_name field ds_name js_code,
     let req := UnitResolver api_id type_name field ds_name
                  AppSync.appsync_js js_code in
     update_then_create (update_resolver client req w) (create_resolver client req)
       (UpdateResolver req) (CreateResolver req)
       (run (AppSync.upsert_js_resolver client api_id type_name field ds_name js_code) w))
  /\ (forall api_id type_name field functions,
     let req := PipelineResolver api_id type_name field "PIPELINE"
                  "{}" "$util.toJson($ctx.result)" functions in
     update_then_create (update_resolver client req w) (create_resolver client req)
       (UpdateResolver req) (CreateResolver req)
       (run (Pipeline.create_pipeline_resolver client api_id type_name field functions) w))
  /\ (forall api_id name ds_name js_code,
     let upd := FunctionRequest api_id (Some name) name ds_name
                  AppSync.appsync_js js_code in
     let crt := FunctionRequest api_id None name ds_name
                  AppSync.appsync_js js_code in
     update_then_create (update_function client upd w) (create_function_call client crt)
       (UpdateFunction upd) (CreateFunction crt)
       (run (Pipeline.create_function client api_id name ds_name js_code) w)).
Proof.
  split; [|split]; intros; apply MonadFacts.try_update_then_create.
Qed.

Lemma attach_update_then_create_witness :
  let req := UnitResolver "api" "Query" "getCost" "CostDS"
               AppSync.appsync_js "export function request(ctx) {}" in
  fst (update_resolver Demo.appsync req Demo.fresh)
    = Raise (Exn NotFoundException "No resolver found")
  /\ run (AppSync.upsert_js_resolver Demo.appsync "api" "Query" "getCost" "CostDS"
            "export function request(ctx) {}") Demo.fresh
     = (Returned tt,
        RunState (Demo.set_resolvers Demo.fresh [("Query", "getCost")])
          [UpdateResolver req; CreateResolver req]).
Proof.
  split; [reflexivity|].
  apply (proj2 (proj2 (proj1 (attach_update_then_create Demo.appsync Demo.fresh)
                         "api" "Query" "getCost" "CostDS"
                         "export function request(ctx) {}"))
           (Exn NotFoundException "No resolver found")); reflexivity.
Defined.

(** ** The API key *)

Module KeyFacts.
Import AppSync.



End KeyFacts.



(** ** Uploading the schema *)

Module SchemaFacts.
Import Vocabulary AppSync.

Section WithWorld.
Context {W : Type}.
Variables (E : environment W) (client : appsync_client W) (api_id : string).

Lemma poll_schema_step (n : nat) (s : run_state W) :
  poll_schema (S n) E client api_id s =
  let s1 w' := RunState w' (log s ++ [GetSchemaCreationStatus api_id]) in
  match get_schema_creation_status client api_id (world s) with
  | (Ok st, w') =>
      if terminal_status (status st) then
        if is_success st then (Returned tt, s1 w')
        else (Raised (schema_error (status st)
                        (match details st with Some d => d | None => "" end)),
              s1 w')
      else poll_schema n E client api_id
             (RunState (sleep E 2 w')
                (log (s1 w') ++ [Sleep 2]))
  | (Raise e, w') => (Raised e, s1 w')
  end.
Proof.
  cbn [poll_schema]. unfold bind, call, do_sleep, is_success.
  destruct (get_schema_creation_status client api_id (world s)) as [[st|e] w'];
    [|reflexivity].
  destruct (terminal_status (status st)); [|reflexivity].
  destruct (match status st with
            | Some s0 => (s0 =? "SUCCESS")%string
            | None => false
            end); reflexivity.
Qed.

Lemma poll_schema_run (n : nat) (s : run_state W) :
  fst (poll_schema n E client api_id s)
    = verdict (List.find stops (answers n E client api_id (world s)))
  /\ log (snd (poll_schema n E client api_id s))
     = (log s ++ polling_log api_id (answers n E client api_id (world s)))%list.
Proof.
  revert s. induction n as [|n IH]; intros s.
  - simpl. rewrite List.app_nil_r. split; reflexivity.
  - rewrite poll_schema_step. cbn [answers]. cbv zeta.
    destruct (get_schema_creation_status client api_id (world s)) as [[st|e] w'];
      cbn [List.find stops polling_log].
    + destruct (terminal_status (status st)) eqn:Ht.
      * cbn [verdict]. destruct (is_success st); split; reflexivity.
      * destruct (IH (RunState (sleep E 2 w')
                        (log (RunState w' (log s ++ [GetSchemaCreationStatus api_id]))
                         ++ [Sleep 2])))
          as [IH1 IH2].
        cbn [world log] in IH1, IH2.
        split; [exact IH1|].
        cbn [log]. rewrite IH2, <- !List.app_assoc. reflexivity.
    + split; reflexivity.
Qed.

Lemma answers_length (n : nat) (w : W) :
  List.length (answers n E client api_id w) = n.
Proof.
  revert w. induction n as [|n IH]; intros w; [reflexivity|].
  simpl. destruct (get_schema_creation_status client api_id w) as [r w'].
  simpl. rewrite IH. reflexivity.
Qed.

Lemma polls_bounded (rs : list (result schema_status)) :
  (List.length (List.filter is_poll (polling_log api_id rs)) <= List.length rs)%nat.
Proof.
  induction rs as [|r rs IH]; simpl; [lia|].
  destruct (stops r); simpl; lia.
Qed.

Lemma polls_all (rs : list (result schema_status)) :
  List.find stops rs = None ->
  List.length (List.filter is_poll (polling_log api_id rs)) = List.length rs.
Proof.
  induction rs as [|r rs IH]; simpl; [reflexivity|].
  destruct (stops r); [discriminate|].
  intros H. simpl. rewrite (IH H). reflexivity.
Qed.

Lemma upload_schema_run (schema_path data : string) (u : unit) (w w1 w2 : W) :
  read_bytes E schema_path w = (Ok data, w1) ->
  start_schema_creation client api_id data w1 = (Ok u, w2) ->
  fst (run (upload_schema E client api_id schema_path) w)
    = verdict (List.find stops (answers 30 E client api_id w2))
  /\ log (snd (run (upload_schema E client api_id schema_path) w))
     = ReadBytes schema_path :: StartSchemaCreation api_id data
       :: polling_log api_id (answers 30 E client api_id w2).
Proof.
  intros Hread Hstart.
  unfold upload_schema, run, bind.
  rewrite MonadFacts.call_run. cbn [world log app]. rewrite Hread.
  cbn [fst snd outcome_of].
  rewrite MonadFacts.call_run. cbn [world log app]. rewrite Hstart.
  cbn [fst snd outcome_of].
  exact (poll_schema_run 30
           (RunState w2 [ReadBytes schema_path; StartSchemaCreation api_id data])).
Qed.

End WithWorld.

End SchemaFacts.

Import Vocabulary.

(** C3, as stated, fails: a terminal status of NOT_APPLICABLE makes
    [upload_schema] raise, exactly as FAILED does. *)
Lemma upload_schema_not_applicable_raises :
  fst (get_schema_creation_status Demo.appsync "api" Demo.not_applicable)
    = Ok (SchemaStatus (Some "NOT_APPLICABLE") (Some "done"))
  /\ fst (run (AppSync.upload_schema Demo.env Demo.appsync "api" "schema.graphql")
            Demo.not_applicable)
     = Raised (Exn RuntimeError "Schema status=NOT_APPLICABLE: done").
Proof. split; reflexivity. Qed.

(** C3, amended: once the schema is read and its creation started,
    [upload_schema] polls the status at most 30 times, sleeping two seconds
    after every answer that is not terminal; provided the polls themselves
    do not fault, it raises exactly when the first terminal status it gets
    (SUCCESS, FAILED or NOT_APPLICABLE) is not SUCCESS: NOT_APPLICABLE raises
    as FAILED does, and a status that is not terminal never raises. *)
Theorem upload_schema_polling {W : Type} (E : environment W)
    (client : appsync_client W) (api_id schema_path data : string) (u : unit)
    (w w1 w2 : W) :
  let rs := answers 30 E client api_id w2 in
  let res := run (AppSync.upload_schema E client api_id schema_path) w in
  read_bytes E schema_path w = (Ok data, w1) ->
  start_schema_creation client api_id data w1 = (Ok u, w2) ->
  (forall r, List.In r rs -> exists st, r = Ok st) ->
  (raised (fst res)
   <-> exists st, List.find stops rs = Some (Ok st) /\ is_success st = false)
  /\ log (snd res)
     = ReadBytes schema_path :: StartSchemaCreation api_id data
       :: polling_log api_id rs
  /\ (List.length (List.filter is_poll (log (snd res))) <= 30)%nat.
Proof.
  cbv zeta. intros Hread Hstart Hok.
  destruct (SchemaFacts.upload_schema_run E client api_id schema_path data u
              w w1 w2 Hread Hstart) as [Hfst Hlog].
  rewrite Hfst, Hlog. split; [|split].
  - destruct (List.find stops (answers 30 E client api_id w2)) as [r|] eqn:Hfind.
    + destruct (List.find_some _ _ Hfind) as [Hin _].
      destruct (Hok r Hin) as [st ->]. cbn [verdict].
      destruct (is_success st) eqn:Hs.
      * split.
        -- intros [e He]. discriminate.
        -- intros [st' [Heq Hs']]. inversion Heq; subst. congruence.
      * split.
        -- intros _. exists st. split; [reflexivity|exact Hs].
        -- intros _. eexists. reflexivity.
    + cbn [verdict]. split.
      * intros [e He]. discriminate.
      * intros [st [Heq _]]. discriminate.
  - reflexivity.
  - cbn [List.filter is_poll].
    pose proof (SchemaFacts.polls_bounded api_id (answers 30 E client api_id w2)) as Hb.
    rewrite SchemaFacts.answers_length in Hb. exact Hb.
Qed.

Lemma upload_schema_polling_witness :
  read_bytes Demo.env "schema.graphql" Demo.not_applicable
    = (Ok "type Query { ping: String }", Demo.not_applicable)
  /\ raised (fst (run (AppSync.upload_schema Demo.env Demo.appsync "api"
                         "schema.graphql") Demo.not_applicable)).
Proof.
  split; [reflexivity|].
  apply (proj1 (upload_schema_polling Demo.env Demo.appsync "api" "schema.graphql"
                  "type Query { ping: String }" tt
                  Demo.not_applicable Demo.not_applicable Demo.not_applicable
                  eq_refl eq_refl
                  ltac:(intros r Hr; vm_compute in Hr;
                        repeat (destruct Hr as [Hr|Hr]; [subst r; eexists; reflexivity|]);
                        contradiction))).
  eexists. split; reflexivity.
Defined.

(** C10: when all 30 polls of [upload_schema] get a status that is not
    terminal, it returns normally after exactly 30 polls: the caller gets
    no sign that the schema never finished compiling. *)
Theorem upload_schema_silent_timeout {W : Type} (E : environment W)
    (client : appsync_client W) (api_id schema_path data : string) (u : unit)
    (w w1 w2 : W) :
  let res := run (AppSync.upload_schema E client api_id schema_path) w in
  read_bytes E schema_path w = (Ok data, w1) ->
  start_schema_creation client api_id data w1 = (Ok u, w2) ->
  (forall r, List.In r (answers 30 E client api_id w2) ->
     exists st, r = Ok st /\ AppSync.terminal_status (status st) = false) ->
  fst res = Returned tt
  /\ List.length (List.filter is_poll (log (snd res))) = 30%nat.
Proof.
  cbv zeta. intros Hread Hstart Hbusy.
  destruct (SchemaFacts.upload_schema_run E client api_id schema_path data u
              w w1 w2 Hread Hstart) as [Hfst Hlog].
  assert (Hnone : List.find stops (answers 30 E client api_id w2) = None).
  { destruct (List.find stops (answers 30 E client api_id w2)) as [r|] eqn:Hfind;
      [|reflexivity].
    destruct (List.find_some _ _ Hfind) as [Hin Hstop].
    destruct (Hbusy r Hin) as [st [-> Hst]]. simpl in Hstop. congruence. }
  rewrite Hfst, Hlog, Hnone. split; [reflexivity|].
  cbn [List.filter is_poll].
  rewrite (SchemaFacts.polls_all api_id _ Hnone).
  apply SchemaFacts.answers_length.
Qed.

Lemma upload_schema_silent_timeout_witness :
  start_schema_creation Demo.appsync "api" "type Query { ping: String }" Demo.stuck
    = (Ok tt, Demo.stuck)
  /\ fst (run (AppSync.upload_schema Demo.env Demo.appsync "api" "schema.graphql")
            Demo.stuck) = Returned tt.
Proof.
  split; [reflexivity|].
  apply (upload_schema_silent_timeout Demo.env Demo.appsync "api" "schema.graphql"
           "type Query { ping: String }" tt Demo.stuck Demo.stuck Demo.stuck
           eq_refl eq_refl).
  intros r Hr. vm_compute in Hr.
  repeat (destruct Hr as [Hr|Hr]; [subst r; eexists; split; reflexivity|]).
  contradiction.
Defined.

(** ** Ensure-style helpers *)

Module EnsureFacts.
Import Vocabulary AppSync.

Section WithWorld.
Context {W : Type}.

Lemma find_app {A : Type} (f : A -> bool) (l1 l2 : list A) :
  List.find f (l1 ++ l2)%list
  = match List.find f l1 with
    | Some x => Some x
    | None => List.find f l2
    end.
Proof.
  induction l1 as [|a l1 IH]; simpl; [reflexivity|].
  destruct (f a); auto.
Qed.

Lemma creation_calls_snoc (l : list event) (ev : event) :
  creation_calls (l ++ [ev])
  = (creation_calls l + (if is_creation ev then 1 else 0))%nat.
Proof.
  rewrite MonadFacts.creation_calls_app. unfold creation_calls at 2. simpl.
  destruct (is_creation ev); reflexivity.
Qed.

Lemma find_api_by_name_step (fuel : nat) (client : appsync_client W)
    (name : string) (token : option string) (s : run_state W) :
  find_api_by_name (S fuel) client name token s =
  let s1 w' := RunState w' (log s ++ [ListGraphqlApis (page_request token)]) in
  match list_graphql_apis client (page_request token) (world s) with
  | (Ok resp, w') =>
      match List.find (name_is name) (get_list (graphqlApis resp)) with
      | Some api => (Returned (Some api), s1 w')
      | None =>
          if truthy (apis_nextToken resp)
          then find_api_by_name fuel client name (apis_nextToken resp) (s1 w')
          else (Returned None, s1 w')
      end
  | (Raise e, w') => (Raised e, s1 w')
  end.
Proof.
  cbn [find_api_by_name]. unfold bind, call, page_request.
  destruct (list_graphql_apis client (if truthy token then token else None) (world s))
    as [[resp|e] w']; [|reflexivity].
  destruct (List.find (name_is name) (get_list (graphqlApis resp))); [reflexivity|].
  destruct (truthy (apis_nextToken resp)); reflexivity.
Qed.

(** The lookup returns only an API whose name is the one asked for. *)
Lemma find_api_by_name_exact (fuel : nat) (client : appsync_client W)
    (name : string) (token : option string) (s s' : run_state W)
    (api : graphql_api) :
  find_api_by_name fuel client name token s = (Returned (Some api), s') ->
  api_name api = name.
Proof.
  revert token s. induction fuel as [|fuel IH]; intros token s.
  - discriminate.
  - rewrite find_api_by_name_step. cbv zeta.
    destruct (list_graphql_apis client (page_request token) (world s))
      as [[resp|e] w']; [|discriminate].
    destruct (List.find (name_is name) (get_list (graphqlApis resp))) as [a|] eqn:Hf.
    + intros H. inversion H; subst.
      apply List.find_some in Hf as [_ Hn]. apply String.eqb_eq, Hn.
    + destruct (truthy (apis_nextToken resp)); [apply IH|discriminate].
Qed.

(** With fuel for every page, the lookup returns the first listed API of
    that name, if any, and issues no creation call. *)
Lemma find_api_by_name_pages (client : appsync_client W) (name : string)
    (token : option string) (w w' : W) (all : list graphql_api) (n : nat) :
  pages_from client token w all w' n ->
  forall (fuel : nat) (l : list event), (n <= fuel)%nat ->
  exists s',
    find_api_by_name fuel client name token (RunState w l)
      = (Returned (List.find (name_is name) all), s')
    /\ creation_calls (log s') = creation_calls l
    /\ (List.find (name_is name) all = None -> world s' = w').
Proof.
  induction 1 as [token w resp w' Hlist Hlast
                 |token w resp w1 rest w2 n Hlist Hmore Hrest IH];
    intros fuel l Hfuel; (destruct fuel as [|fuel]; [lia|]);
    rewrite find_api_by_name_step; cbv zeta; cbn [world log]; rewrite Hlist.
  - destruct (List.find (name_is name) (get_list (graphqlApis resp))) as [a|] eqn:Hf.
    + eexists. split; [reflexivity|]. split; [|discriminate].
      cbn [log]. rewrite creation_calls_snoc. simpl. lia.
    + rewrite Hlast. eexists. split; [reflexivity|]. split; [|reflexivity].
      cbn [log]. rewrite creation_calls_snoc. simpl. lia.
  - rewrite find_app.
    destruct (List.find (name_is name) (get_list (graphqlApis resp))) as [a|] eqn:Hf.
    + eexists. split; [reflexivity|]. split; [|discriminate].
      cbn [log]. rewrite creation_calls_snoc. simpl. lia.
    + rewrite Hmore.
      destruct (IH fuel (l ++ [ListGraphqlApis (page_request token)])%list
                  ltac:(lia)) as (s' & Hrun & Hcount & Hworld).
      exists s'. split; [exact Hrun|]. split; [|exact Hworld].
      rewrite Hcount, creation_calls_snoc. simpl. lia.
Qed.






End WithWorld.

End EnsureFacts.

Import Vocabulary.




(** ** Matching by name *)

(** C2: the fallback lookups of [ensure_sns_topic] and [ensure_sqs_queue]
    do not match by exact name.  With a topic and a queue whose names extend
    the requested ones listed first, they return those: the topic is found
    by [in] on the ARN, the queue by the first URL of a prefix listing. *)
Theorem sns_sqs_fallback_returns_another_resource :
  (fst (run (SnsSqs.ensure_sns_topic Demo.sns "ghc25-anna-0315" "us-east-1")
          Demo.crowded)
     = Returned
         (Some "arn:aws:sns:us-east-1:000000000000:ghc25-anna-0315-price-changes-archive")
   /\ SnsSqs.topic_name_of
        "arn:aws:sns:us-east-1:000000000000:ghc25-anna-0315-price-changes-archive"
      <> "ghc25-anna-0315-price-changes")
  /\ (fst (run (SnsSqs.ensure_sqs_queue Demo.sqs "ghc25-anna-0315" "us-east-1")
             Demo.crowded)
        = Returned
            ("https://sqs.us-east-1.amazonaws.com/000000000000/ghc25-anna-0315-price-processing-dlq",
             "arn:aws:sqs:us-east-1:000000000000:ghc25-anna-0315-price-processing-dlq")
      /\ SnsSqs.queue_name_of
           "https://sqs.us-east-1.amazonaws.com/000000000000/ghc25-anna-0315-price-processing-dlq"
         <> "ghc25-anna-0315-price-processing").
Proof.
  split; (split; [vm_compute; reflexivity | vm_compute; discriminate]).
Qed.

(** The lookup of [find_api_by_name], for comparison, is exact. *)
Lemma find_api_by_name_exact_name {W : Type} (fuel : nat)
    (client : appsync_client W) (name : string) (w : W) (api : graphql_api) :
  fst (run (AppSync.find_api_by_name fuel client name None) w) = Returned (Some api) ->
  api_name api = name.
Proof.
  unfold run.
  destruct (AppSync.find_api_by_name fuel client name None (RunState w [])) as [r s'] eqn:E.
  simpl. intros ->. eapply EnsureFacts.find_api_by_name_exact. exact E.
Qed.

(** ** The examples of the specification *)

Example sanitize_name_example : Env.sanitize_name "My Cool API!!" = "my-cool-api".
Proof. reflexivity. Qed.

Example build_api_name_example :
  Env.build_api_name "My Cool API" "0315" "ghc25" 20
  = ("ghc25-my-cool-a-0315", "my-cool-a").
Proof. reflexivity. Qed.

Example build_api_name_default_example :
  Env.build_api_name_default "My Cool API" "0315"
  = ("ghc25-my-cool-api-0315", "my-cool-api").
Proof. reflexivity. Qed.

(** * Further properties of the helpers *)

(** ** helpers_env.py *)

Module NamingFacts.
Import PyStr PyStrFacts Vocabulary Env.

Lemma length_map_chars (f : ascii -> ascii) (s : string) :
  String.length (map_chars f s) = String.length s.
Proof. induction s as [|c r IH]; simpl; auto. Qed.

Lemma length_filter_chars (p : ascii -> bool) (s : string) :
  (String.length (filter_chars p s) <= String.length s)%nat.
Proof. induction s as [|c r IH]; simpl; [lia|]. destruct (p c); simpl; lia. Qed.

Lemma length_collapse (s : string) :
  (String.length (collapse_hyphens s) <= String.length s)%nat.
Proof.
  induction s as [|c r IH]; simpl; [lia|].
  destruct (is_hyphen c && starts_with_hyphen r); simpl; lia.
Qed.

Lemma length_lstrip (p : ascii -> bool) (s : string) :
  (String.length (lstrip p s) <= String.length s)%nat.
Proof. induction s as [|c r IH]; simpl; [lia|]. destruct (p c); simpl; lia. Qed.

Lemma length_rstrip (p : ascii -> bool) (s : string) :
  (String.length (rstrip p s) <= String.length s)%nat.
Proof.
  induction s as [|c r IH]; simpl; [lia|].
  destruct (rstrip p r) as [|d t]; [destruct (p c)|]; simpl in *; lia.
Qed.

Lemma length_strip (p : ascii -> bool) (s : string) :
  (String.length (strip p s) <= String.length s)%nat.
Proof.
  unfold strip. pose proof (length_rstrip p (lstrip p s)). pose proof (length_lstrip p s). lia.
Qed.

Lemma length_core (name : string) :
  (String.length (sanitize_core name) <= String.length name)%nat.
Proof.
  unfold sanitize_core, replace_char, lower.
  pose proof (length_strip is_hyphen
    (collapse_hyphens (filter_chars allowed
       (map_chars (fun c => if Ascii.eqb c " " then "-"%char else c)
          (strip is_space (map_chars lower_char name)))))) as H1.
  pose proof (length_collapse
    (filter_chars allowed
       (map_chars (fun c => if Ascii.eqb c " " then "-"%char else c)
          (strip is_space (map_chars lower_char name))))) as H2.
  pose proof (length_filter_chars allowed
    (map_chars (fun c => if Ascii.eqb c " " then "-"%char else c)
       (strip is_space (map_chars lower_char name)))) as H3.
  rewrite length_map_chars in H3.
  pose proof (length_strip is_space (map_chars lower_char name)) as H4.
  rewrite length_map_chars in H4.
  lia.
Qed.

End NamingFacts.

(** X1: a sanitized name is never empty and is at most two characters (the
    marker) longer than the name it comes from. *)
Theorem sanitize_name_length (name : string) :
  (1 <= String.length (Env.sanitize_name name) <= String.length name + 2)%nat.
Proof.
  split; [apply EnvFacts.sanitize_name_nonempty|].
  pose proof (NamingFacts.length_core name) as Hc.
  destruct (EnvFacts.sanitize_name_shape name) as [E|c t E Hc'|c t E Hc'];
    rewrite E in Hc; simpl in *; lia.
Qed.

(** X2: when the composed name fits, [build_api_name] returns it with the
    whole sanitized base; when it does not fit but the maximum leaves room
    for at least one character of the base, the name returned has exactly
    the maximum length, the base being cut to the characters that fit. *)
Theorem build_api_name_room (display_name suffix prefix : string) (max_len : Z) :
  let base := Env.sanitize_name display_name in
  let fixed := Z.of_nat (String.length prefix + String.length suffix + 2) in
  let built := Env.build_api_name display_name suffix prefix max_len in
  ((fixed + Z.of_nat (String.length base) <= max_len)%Z ->
   built = (Env.api_name_of prefix base suffix, base))
  /\ ((fixed + 1 <= max_len < fixed + Z.of_nat (String.length base))%Z ->
      Z.of_nat (String.length (fst built)) = max_len
      /\ snd built = PyStr.take (Z.to_nat (max_len - fixed)) base).
Proof.
  cbv zeta. unfold Env.build_api_name.
  set (base := Env.sanitize_name display_name).
  rewrite !EnvFacts.length_api_name_of.
  split.
  - intros Hfit.
    destruct (Z.gtb_spec
      (Z.of_nat (String.length prefix + String.length base + String.length suffix + 2))
      max_len) as [Hgt|_]; [lia|reflexivity].
  - intros [Hroom Hlong].
    destruct (Z.gtb_spec
      (Z.of_nat (String.length prefix + String.length base + String.length suffix + 2))
      max_len) as [_|Hle]; [|lia].
    cbn [fst snd].
    set (overflow := (Z.of_nat (String.length prefix + String.length base
                                + String.length suffix + 2) - max_len)%Z).
    destruct (Z.ltb_spec overflow (Z.of_nat (String.length base))) as [Hlt|Hge];
      [|unfold overflow in Hge; lia].
    unfold PyStr.slice_to.
    destruct (Z.ltb_spec (- overflow) 0) as [_|Hneg]; [|unfold overflow in Hneg; lia].
    replace (Z.max 0 (Z.of_nat (String.length base) + - overflow))
      with (max_len - Z.of_nat (String.length prefix + String.length suffix + 2))%Z
      by (unfold overflow; lia).
    split; [|reflexivity].
    rewrite EnvFacts.length_api_name_of, PyStrFacts.length_take. lia.
Qed.

Lemma build_api_name_room_witness :
  (Z.of_nat (String.length "ghc25" + String.length "0315" + 2) + 1 <= 20
   < Z.of_nat (String.length "ghc25" + String.length "0315" + 2)
     + Z.of_nat (String.length (Env.sanitize_name "My Cool API")))%Z
  /\ Z.of_nat (String.length
       (fst (Env.build_api_name "My Cool API" "0315" "ghc25" 20))) = 20%Z.
Proof.
  assert (H : (Z.of_nat (String.length "ghc25" + String.length "0315" + 2) + 1 <= 20
               < Z.of_nat (String.length "ghc25" + String.length "0315" + 2)
                 + Z.of_nat (String.length (Env.sanitize_name "My Cool API")))%Z)
    by (vm_compute; split; [discriminate|reflexivity]).
  split; [exact H|].
  exact (proj1 (proj2 (build_api_name_room "My Cool API" "0315" "ghc25" 20) H)).
Defined.

(** X3: when the maximum leaves no room for even one character of the
    base (any maximum below the lengths of prefix and suffix plus three,
    negative ones included), [build_api_name] keeps the first character of
    the base, and the name returned has the lengths of prefix and suffix plus
    three characters, whatever the maximum. *)
Theorem build_api_name_floor (display_name suffix prefix : string) (max_len : Z) :
  let base := Env.sanitize_name display_name in
  let built := Env.build_api_name display_name suffix prefix max_len in
  (max_len < Z.of_nat (String.length prefix + String.length suffix + 3))%Z ->
  snd built = PyStr.take 1 base
  /\ fst built = Env.api_name_of prefix (PyStr.take 1 base) suffix
  /\ String.length (fst built)
     = (String.length prefix + String.length suffix + 3)%nat.
Proof.
  cbv zeta. intros Hsmall. unfold Env.build_api_name.
  pose proof (EnvFacts.sanitize_name_nonempty display_name) as Hb.
  set (base := Env.sanitize_name display_name) in *.
  rewrite !EnvFacts.length_api_name_of.
  destruct (Z.gtb_spec
    (Z.of_nat (String.length prefix + String.length base + String.length suffix + 2))
    max_len) as [_|Hle]; [|lia].
  cbn [fst snd].
  set (overflow := (Z.of_nat (String.length prefix + String.length base
                              + String.length suffix + 2) - max_len)%Z).
  destruct (Z.ltb_spec overflow (Z.of_nat (String.length base))) as [Hlt|Hge];
    [unfold overflow in Hlt; lia|].
  unfold PyStr.slice_to.
  replace (Z.max 1 (Z.of_nat (String.length base) - overflow)) with 1%Z by lia.
  cbn [Z.ltb Z.compare Z.to_nat Pos.to_nat Pos.iter_op].
  split; [reflexivity|]. split; [reflexivity|].
  rewrite EnvFacts.length_api_name_of, PyStrFacts.length_take. lia.
Qed.

Lemma build_api_name_floor_witness :
  (-7 < Z.of_nat (String.length "ghc25" + String.length "0315" + 3))%Z
  /\ Env.build_api_name "My Cool API" "0315" "ghc25" (-7) = ("ghc25-m-0315", "m").
Proof.
  split; [reflexivity|].
  destruct (build_api_name_floor "My Cool API" "0315" "ghc25" (-7) eq_refl)
    as (Hcut & Hfull & _).
  rewrite (surjective_pairing (Env.build_api_name "My Cool API" "0315" "ghc25" (-7))).
  rewrite Hcut, Hfull. reflexivity.
Defined.

(** X4: [validate_identifiers] raises nothing but [ValueError]; the first
    argument is checked first, so an empty or placeholder first argument
    gives the message about NAME whatever the second argument is, and the
    message about MMDD is given only when the first argument passes. *)
Theorem validate_identifiers_error (first_name_prefix birth_mmdd : string)
    (e : exn) :
  Env.validate_identifiers first_name_prefix birth_mmdd = Raise e ->
  exn_cls e = ValueError
  /\ ((first_name_prefix = "" \/ first_name_prefix = "NAME") ->
      exn_msg e
      = "ERROR: Please replace 'NAME' with the first 4 letters of your first name")
  /\ (~ (first_name_prefix = "" \/ first_name_prefix = "NAME") ->
      (birth_mmdd = "" \/ birth_mmdd = "MMDD")
      /\ exn_msg e
         = "ERROR: Please replace 'MMDD' with your birth month and day (e.g., '0315' for March 15)").
Proof.
  unfold Env.validate_identifiers.
  destruct first_name_prefix as [|c r].
  - simpl. intros H. inversion H; subst. simpl.
    split; [reflexivity|]. split; [reflexivity|]. intros N. exfalso. auto.
  - cbn [PyStr.is_empty orb].
    destruct (String.eqb_spec (String c r) "NAME") as [E|NE].
    + intros H. inversion H; subst. simpl.
      split; [reflexivity|]. split; [reflexivity|]. intros N. exfalso. auto.
    + destruct birth_mmdd as [|d t].
      * simpl. intros H. inversion H; subst. simpl.
        split; [reflexivity|]. split; [|auto].
        intros [F|F]; [discriminate|contradiction].
      * cbn [PyStr.is_empty orb].
        destruct (String.eqb_spec (String d t) "MMDD") as [E'|NE']; [|discriminate].
        intros H. inversion H; subst. simpl.
        split; [reflexivity|]. split; [|auto].
        intros [F|F]; [discriminate|contradiction].
Qed.

Lemma validate_identifiers_error_witness :
  Env.validate_identifiers "NAME" "MMDD"
    = Raise (Exn ValueError
        "ERROR: Please replace 'NAME' with the first 4 letters of your first name")
  /\ exn_cls (Exn ValueError
        "ERROR: Please replace 'NAME' with the first 4 letters of your first name")
     = ValueError.
Proof.
  split; [reflexivity|].
  exact (proj1 (validate_identifiers_error "NAME" "MMDD" _ eq_refl)).
Defined.



(** ** helpers_appsync.py *)

Module LookupFacts.
Import Vocabulary Measures AppSync.

Section WithWorld.
Context {W : Type}.

Lemma truthy_request (token : option string) :
  truthy token = true -> page_request token = token.
Proof. unfold page_request. intros ->. reflexivity. Qed.

(** Whatever the service answers, the lookup only lists. *)
Lemma find_api_by_name_requests (fuel : nat) (client : appsync_client W)
    (name : string) (token : option string) (s : run_state W) :
  exists reqs,
    log (snd (find_api_by_name fuel client name token s))
      = (log s ++ List.map ListGraphqlApis reqs)%list
    /\ (List.length reqs <= fuel)%nat
    /\ (reqs = []
        \/ exists rest, reqs = page_request token :: rest
                        /\ List.Forall (fun t => truthy t = true) rest).
Proof.
  revert token s. induction fuel as [|fuel IH]; intros token s.
  - exists []. simpl. rewrite List.app_nil_r. auto.
  - rewrite EnsureFacts.find_api_by_name_step. cbv zeta.
    destruct (list_graphql_apis client (page_request token) (world s))
      as [[resp|e] w'].
    + destruct (List.find (name_is name) (get_list (graphqlApis resp))).
      * exists [page_request token]. cbn [snd log List.map List.length].
        split; [reflexivity|]. split; [lia|]. right. exists []. auto.
      * destruct (truthy (apis_nextToken resp)) eqn:Ht.
        -- destruct (IH (apis_nextToken resp)
                       (RunState w' (log s ++ [ListGraphqlApis (page_request token)])))
             as (reqs & Hlog & Hlen & Hshape).
           exists (page_request token :: reqs). cbn [log] in Hlog.
           split.
           { rewrite Hlog, <- List.app_assoc. reflexivity. }
           split; [simpl; lia|]. right. exists reqs. split; [reflexivity|].
           destruct Hshape as [->|(rest & -> & Hrest)]; [constructor|].
           constructor; [|exact Hrest].
           rewrite (truthy_request _ Ht). exact Ht.
        -- exists [page_request token]. cbn [snd log List.map List.length].
           split; [reflexivity|]. split; [lia|]. right. exists []. auto.
    + exists [page_request token]. cbn [snd log List.map List.length].
      split; [reflexivity|]. split; [lia|]. right. exists []. auto.
Qed.

Lemma creation_calls_listings (reqs : list (option string)) :
  creation_calls (List.map ListGraphqlApis reqs) = 0%nat.
Proof. induction reqs as [|r reqs IH]; [reflexivity|exact IH]. Qed.

(** A listing that never ends and never shows the name leaves the loop
    running, whatever the fuel. *)
Lemma find_api_by_name_no_exit (client : appsync_client W) (name : string) :
  (forall token w, exists resp w',
      list_graphql_apis client token w = (Ok resp, w')
      /\ List.find (name_is name) (get_list (graphqlApis resp)) = None
      /\ truthy (apis_nextToken resp) = true) ->
  forall fuel token s,
    fst (find_api_by_name fuel client name token s) = OutOfFuel.
Proof.
  intros Hloop. induction fuel as [|fuel IH]; intros token s; [reflexivity|].
  rewrite EnsureFacts.find_api_by_name_step. cbv zeta.
  destruct (Hloop (page_request token) (world s)) as (resp & w' & -> & -> & ->).
  apply IH.
Qed.

End WithWorld.

End LookupFacts.

Import Vocabulary Measures.

(** X6: whatever the service answers and however long it runs,
    [find_api_by_name] only issues list calls: the first without a token,
    every later one with the non-empty token of the page before; it issues
    no creation call; and an API it returns has exactly the name asked for. *)
Theorem find_api_by_name_only_lists {W : Type} (fuel : nat)
    (client : appsync_client W) (name : string) (w : W) :
  let res := run (AppSync.find_api_by_name fuel client name None) w in
  (exists reqs,
     log (snd res) = List.map ListGraphqlApis reqs
     /\ (List.length reqs <= fuel)%nat
     /\ (reqs = []
         \/ exists rest, reqs = None :: rest
                         /\ List.Forall (fun t => truthy t = true) rest))
  /\ creation_calls (log (snd res)) = 0%nat
  /\ (forall api, fst res = Returned (Some api) -> api_name api = name).
Proof.
  cbv zeta. unfold run.
  destruct (LookupFacts.find_api_by_name_requests fuel client name None (RunState w []))
    as (reqs & Hlog & Hlen & Hshape).
  cbn [log app] in Hlog.
  split; [exists reqs; auto|].
  split; [rewrite Hlog; apply LookupFacts.creation_calls_listings|].
  intros api Hres.
  destruct (AppSync.find_api_by_name fuel client name None (RunState w [])) as [r s'] eqn:E.
  simpl in Hres. subst r. eapply EnsureFacts.find_api_by_name_exact. exact E.
Qed.

Lemma find_api_by_name_only_lists_witness :
  fst (run (AppSync.find_api_by_name 2 Demo.appsync "ghc25-anna-0315" None)
         Demo.two_pages) = Returned (Some Demo.workshop_api)
  /\ api_name Demo.workshop_api = "ghc25-anna-0315".
Proof.
  split; [reflexivity|].
  exact (proj2 (proj2 (find_api_by_name_only_lists 2 Demo.appsync "ghc25-anna-0315"
                         Demo.two_pages))
           Demo.workshop_api eq_refl).
Defined.

(** X7: when the listing ends after [n] pages, [find_api_by_name] returns,
    within [n] rounds, the first API of that name in the order of the pages
    (also when several share the name), and [None] when there is none. *)
Theorem find_api_by_name_first_match {W : Type} (client : appsync_client W)
    (name : string) (w w' : W) (all : list graphql_api) (n fuel : nat) :
  pages_from client None w all w' n -> (n <= fuel)%nat ->
  fst (run (AppSync.find_api_by_name fuel client name None) w)
    = Returned (List.find (AppSync.name_is name) all).
Proof.
  intros Hpages Hfuel. unfold run.
  destruct (EnsureFacts.find_api_by_name_pages client name None w w' all n Hpages
              fuel [] Hfuel) as (s' & -> & _).
  reflexivity.
Qed.

Lemma find_api_by_name_first_match_witness :
  pages_from Demo.appsync None Demo.two_pages
    [GraphqlApi "other" "api-1" "arn:aws:appsync:api-1"; Demo.workshop_api]
    Demo.two_pages 2
  /\ fst (run (AppSync.find_api_by_name 5 Demo.appsync "missing" None) Demo.two_pages)
     = Returned None.
Proof.
  assert (Hpages :
    pages_from Demo.appsync None Demo.two_pages
      [GraphqlApi "other" "api-1" "arn:aws:appsync:api-1"; Demo.workshop_api]
      Demo.two_pages 2).
  { exact (next_page Demo.appsync None Demo.two_pages
             (ListApisResponse
                (Some [GraphqlApi "other" "api-1" "arn:aws:appsync:api-1"])
                (Some "+"))
             Demo.two_pages [Demo.workshop_api] Demo.two_pages 1
             eq_refl eq_refl
             (last_page Demo.appsync (Some "+") Demo.two_pages
                (ListApisResponse (Some [Demo.workshop_api]) None)
                Demo.two_pages eq_refl eq_refl)). }
  split; [exact Hpages|].
  exact (find_api_by_name_first_match Demo.appsync "missing" Demo.two_pages
           Demo.two_pages _ 2 5 Hpages (le_S _ _ (le_S _ _ (le_S _ _ (le_n 2))))).
Defined.

(** X8: the loop of [find_api_by_name] has no exit of its own.  Against a
    service whose every page lacks the name and carries a non-empty token,
    it is still running after any number of rounds, and [ensure_api] with it:
    neither returns, raises or creates anything. *)
Theorem find_api_by_name_endless {W : Type} (client : appsync_client W)
    (name : string) :
  (forall token w, exists resp w',
      list_graphql_apis client token w = (Ok resp, w')
      /\ List.find (AppSync.name_is name) (get_list (graphqlApis resp)) = None
      /\ truthy (apis_nextToken resp) = true) ->
  forall fuel w,
    fst (run (AppSync.find_api_by_name fuel client name None) w) = OutOfFuel
    /\ (forall role xray,
          fst (run (AppSync.ensure_api fuel client name role xray) w) = OutOfFuel
          /\ creation_calls
               (log (snd (run (AppSync.ensure_api fuel client name role xray) w)))
             = 0%nat).
Proof.
  intros Hloop fuel w.
  pose proof (LookupFacts.find_api_by_name_no_exit client name Hloop fuel None
                (RunState w [])) as Hout.
  split; [exact Hout|].
  intros role xray. unfold run, AppSync.ensure_api, bind.
  destruct (LookupFacts.find_api_by_name_requests fuel client name None (RunState w []))
    as (reqs & Hlog & _).
  destruct (AppSync.find_api_by_name fuel client name None (RunState w []))
    as [r s'] eqn:E.
  simpl in Hout. subst r. cbn [fst snd].
  split; [reflexivity|].
  cbn [snd log app] in Hlog. rewrite Hlog.
  apply LookupFacts.creation_calls_listings.
Qed.

Lemma find_api_by_name_endless_witness :
  fst (run (AppSync.find_api_by_name 1000 Outage.endless "ghc25-anna-0315" None)
         Demo.fresh) = OutOfFuel.
Proof.
  apply (find_api_by_name_endless Outage.endless "ghc25-anna-0315").
  intros token w. eexists. eexists. split; [reflexivity|]. split; reflexivity.
Defined.

Module UploadFacts.
Import Vocabulary Measures AppSync.

Lemma total_sleep_app (l1 l2 : list event) :
  total_sleep (l1 ++ l2) = (total_sleep l1 + total_sleep l2)%Z.
Proof.
  induction l1 as [|e l1 IH]; [reflexivity|].
  simpl. destruct e; rewrite ?IH; lia.
Qed.

Lemma total_sleep_polling (api_id : string) (rs : list (result schema_status)) :
  (0 <= total_sleep (polling_log api_id rs) <= 2 * Z.of_nat (List.length rs))%Z.
Proof.
  induction rs as [|r rs IH]; [simpl; lia|].
  cbn [polling_log total_sleep List.length].
  destruct (stops r); cbn [total_sleep]; lia.
Qed.

Lemma creation_calls_polling (api_id : string) (rs : list (result schema_status)) :
  creation_calls (polling_log api_id rs) = 0%nat.
Proof.
  induction rs as [|r rs IH]; [reflexivity|].
  cbn [polling_log]. destruct (stops r); [reflexivity|exact IH].
Qed.

Section WithWorld.
Context {W : Type}.
Variables (E : environment W) (client : appsync_client W).

(** The three ways an upload can go, by its first two calls. *)
Lemma upload_schema_cases (api_id schema_path : string) (w : W) :
  let res := run (upload_schema E client api_id schema_path) w in
  (exists e, fst (read_bytes E schema_path w) = Raise e
             /\ res = (Raised e, RunState (snd (read_bytes E schema_path w))
                                  [ReadBytes schema_path]))
  \/ (exists data w1 e,
        read_bytes E schema_path w = (Ok data, w1)
        /\ fst (start_schema_creation client api_id data w1) = Raise e
        /\ res = (Raised e,
                  RunState (snd (start_schema_creation client api_id data w1))
                    [ReadBytes schema_path; StartSchemaCreation api_id data]))
  \/ (exists data w1 u w2,
        read_bytes E schema_path w = (Ok data, w1)
        /\ start_schema_creation client api_id data w1 = (Ok u, w2)
        /\ fst res = verdict (List.find stops (answers 30 E client api_id w2))
        /\ log (snd res)
           = ReadBytes schema_path :: StartSchemaCreation api_id data
             :: polling_log api_id (answers 30 E client api_id w2)).
Proof.
  cbv zeta.
  destruct (read_bytes E schema_path w) as [[data|e] w1] eqn:Hread.
  - destruct (start_schema_creation client api_id data w1) as [[u|e] w2] eqn:Hstart.
    + right. right. exists data, w1, u, w2.
      destruct (SchemaFacts.upload_schema_run E client api_id schema_path data u
                  w w1 w2 Hread Hstart) as [H1 H2].
      auto.
    + right. left. exists data, w1, e. split; [reflexivity|].
      rewrite Hstart. split; [reflexivity|].
      unfold upload_schema, run, bind.
      rewrite MonadFacts.call_run. cbn [world log app]. rewrite Hread.
      cbn [fst snd outcome_of].
      rewrite MonadFacts.call_run. cbn [world log app]. rewrite Hstart.
      reflexivity.
  - left. exists e. split; [reflexivity|].
    unfold upload_schema, run, bind.
    rewrite MonadFacts.call_run. cbn [world log app]. rewrite Hread.
    reflexivity.
Qed.

End WithWorld.

End UploadFacts.

(** X9: when the first list call of the lookup faults, [ensure_api] raises
    that fault as it is, after that single call and without any creation
    call. *)
Theorem ensure_api_lookup_fault {W : Type} (fuel : nat)
    (client : appsync_client W) (name : string) (role : option string)
    (xray : bool) (w w1 : W) (e : exn) :
  list_graphql_apis client None w = (Raise e, w1) ->
  run (AppSync.ensure_api (S fuel) client name role xray) w
    = (Raised e, RunState w1 [ListGraphqlApis None]).
Proof.
  intros Hlist. unfold run, AppSync.ensure_api, bind.
  rewrite EnsureFacts.find_api_by_name_step. cbv zeta. cbn [world log app].
  change (page_request None) with (@None string). rewrite Hlist. reflexivity.
Qed.

Lemma ensure_api_lookup_fault_witness :
  run (AppSync.ensure_api 3 (Outage.appsync unit Outage.access_denied)
         "ghc25-anna-0315" None false) tt
    = (Raised Outage.access_denied, RunState tt [ListGraphqlApis None]).
Proof.
  exact (ensure_api_lookup_fault 2 (Outage.appsync unit Outage.access_denied)
           "ghc25-anna-0315" None false tt tt Outage.access_denied eq_refl).
Defined.

(** X10: [upload_schema] sends nothing to the service when the schema file
    cannot be read, and does not poll when starting the schema creation
    faults; in both cases the fault is raised as it is. *)
Theorem upload_schema_early_fault {W : Type} (E : environment W)
    (client : appsync_client W) (api_id schema_path : string) (w : W) :
  (forall e w1,
     read_bytes E schema_path w = (Raise e, w1) ->
     run (AppSync.upload_schema E client api_id schema_path) w
       = (Raised e, RunState w1 [ReadBytes schema_path]))
  /\ (forall data w1 e w2,
     read_bytes E schema_path w = (Ok data, w1) ->
     start_schema_creation client api_id data w1 = (Raise e, w2) ->
     run (AppSync.upload_schema E client api_id schema_path) w
       = (Raised e, RunState w2 [ReadBytes schema_path;
                                 StartSchemaCreation api_id data])).
Proof.
  split.
  - intros e w1 Hread. unfold AppSync.upload_schema, run, bind.
    rewrite MonadFacts.call_run. cbn [world log app]. rewrite Hread. reflexivity.
  - intros data w1 e w2 Hread Hstart. unfold AppSync.upload_schema, run, bind.
    rewrite MonadFacts.call_run. cbn [world log app]. rewrite Hread.
    cbn [fst snd outcome_of].
    rewrite MonadFacts.call_run. cbn [world log app]. rewrite Hstart. reflexivity.
Qed.

Lemma upload_schema_early_fault_witness :
  run (AppSync.upload_schema Demo.env Outage.no_schema "api" "schema.graphql")
    Demo.fresh
  = (Raised Outage.access_denied,
     RunState Demo.fresh [ReadBytes "schema.graphql";
                          StartSchemaCreation "api" "type Query { ping: String }"]).
Proof.
  exact (proj2 (upload_schema_early_fault Demo.env Outage.no_schema "api"
                  "schema.graphql" Demo.fresh)
           "type Query { ping: String }" Demo.fresh Outage.access_denied Demo.fresh
           eq_refl eq_refl).
Defined.

(** X11: whatever the file system and the service do, a run of
    [upload_schema] sleeps at most 60 seconds in all, polls at most 30 times
    and issues no creation call. *)
Theorem upload_schema_bounded {W : Type} (E : environment W)
    (client : appsync_client W) (api_id schema_path : string) (w : W) :
  let l := log (snd (run (AppSync.upload_schema E client api_id schema_path) w)) in
  (0 <= total_sleep l <= 60)%Z
  /\ (List.length (List.filter is_poll l) <= 30)%nat
  /\ creation_calls l = 0%nat.
Proof.
  cbv zeta.
  destruct (UploadFacts.upload_schema_cases E client api_id schema_path w)
    as [(e & _ & ->) | [(data & w1 & e & _ & _ & ->)
                       | (data & w1 & u & w2 & _ & _ & _ & ->)]].
  - cbn. repeat split; lia.
  - cbn. repeat split; lia.
  - pose proof (UploadFacts.total_sleep_polling api_id (answers 30 E client api_id w2)) as Hs.
    pose proof (SchemaFacts.polls_bounded api_id (answers 30 E client api_id w2)) as Hp.
    rewrite SchemaFacts.answers_length in Hs, Hp.
    cbn [total_sleep List.filter is_poll].
    split; [lia|]. split; [exact Hp|].
    change (ReadBytes schema_path :: StartSchemaCreation api_id data
            :: polling_log api_id (answers 30 E client api_id w2))
      with ([ReadBytes schema_path; StartSchemaCreation api_id data]
            ++ polling_log api_id (answers 30 E client api_id w2))%list.
    rewrite MonadFacts.creation_calls_app, UploadFacts.creation_calls_polling.
    reflexivity.
Qed.

(** X12: the error [upload_schema] raises on a terminal status other than
    SUCCESS is a [RuntimeError] that names the status, FAILED or
    NOT_APPLICABLE, followed by at most the first 400 characters of the
    details (none when the answer has no details). *)
Theorem upload_schema_error_message {W : Type} (E : environment W)
    (client : appsync_client W) (api_id schema_path data : string) (u : unit)
    (w w1 w2 : W) (st : schema_status) :
  read_bytes E schema_path w = (Ok data, w1) ->
  start_schema_creation client api_id data w1 = (Ok u, w2) ->
  List.find stops (answers 30 E client api_id w2) = Some (Ok st) ->
  is_success st = false ->
  exists s,
    status st = Some s
    /\ (s = "FAILED" \/ s = "NOT_APPLICABLE")
    /\ fst (run (AppSync.upload_schema E client api_id schema_path) w)
       = Raised (Exn RuntimeError
                   ("Schema status=" ++ s ++ ": "
                    ++ PyStr.take 400 (match details st with
                                       | Some d => d
                                       | None => ""
                                       end)))
    /\ (String.length (PyStr.take 400 (match details st with
                                        | Some d => d
                                        | None => ""
                                        end)) <= 400)%nat.
Proof.
  intros Hread Hstart Hfind Hfail.
  destruct (SchemaFacts.upload_schema_run E client api_id schema_path data u
              w w1 w2 Hread Hstart) as [Hfst _].
  rewrite Hfst, Hfind. cbn [verdict]. rewrite Hfail.
  destruct (List.find_some _ _ Hfind) as [_ Hstop]. cbn [stops] in Hstop.
  unfold is_success in Hfail. unfold AppSync.terminal_status in Hstop.
  destruct (status st) as [s|] eqn:Hs; [|discriminate].
  exists s. split; [reflexivity|].
  rewrite Hfail in Hstop. cbn [orb] in Hstop.
  split.
  - apply orb_true_iff in Hstop as [H|H]; apply String.eqb_eq in H; auto.
  - split; [reflexivity|]. rewrite PyStrFacts.length_take. lia.
Qed.

Lemma upload_schema_error_message_witness :
  List.find stops (answers 30 Demo.env Demo.appsync "api" Demo.not_applicable)
    = Some (Ok (SchemaStatus (Some "NOT_APPLICABLE") (Some "done")))
  /\ exists s,
       s = "NOT_APPLICABLE"
       /\ fst (run (AppSync.upload_schema Demo.env Demo.appsync "api" "schema.graphql")
                 Demo.not_applicable)
          = Raised (Exn RuntimeError ("Schema status=" ++ s ++ ": done")).
Proof.
  split; [reflexivity|].
  destruct (upload_schema_error_message Demo.env Demo.appsync "api" "schema.graphql"
              "type Query { ping: String }" tt
              Demo.not_applicable Demo.not_applicable Demo.not_applicable
              (SchemaStatus (Some "NOT_APPLICABLE") (Some "done"))
              eq_refl eq_refl eq_refl eq_refl)
    as (s & Hs & _ & Hres & _).
  exists s. inversion Hs; subst s. split; [reflexivity|exact Hres].
Defined.

Module SplitFacts.
Import PyStr Measures.

Lemma split_nonempty (sep : ascii) (s : string) : split sep s <> [].
Proof.
  destruct s as [|c r]; simpl; [discriminate|].
  destruct (Ascii.eqb c sep); [discriminate|].
  destruct (split sep r); discriminate.
Qed.

Lemma free_of_cons (sep c : ascii) (r : string) :
  free_of sep (String c r) -> Ascii.eqb c sep = false /\ free_of sep r.
Proof.
  unfold free_of. simpl. destruct (Ascii.eqb c sep); [discriminate|]. auto.
Qed.

Lemma split_free (sep : ascii) (s : string) :
  free_of sep s -> split sep s = [s].
Proof.
  induction s as [|c r IH]; [reflexivity|].
  intros H. apply free_of_cons in H as [Hc Hr].
  simpl. rewrite Hc, (IH Hr). reflexivity.
Qed.

Lemma split_app (sep : ascii) (a b : string) :
  split sep (a ++ String sep b) = (split sep a ++ split sep b)%list.
Proof.
  induction a as [|c a IH].
  - simpl. rewrite Ascii.eqb_refl. reflexivity.
  - simpl append. cbn [split]. rewrite IH.
    destruct (Ascii.eqb c sep); [reflexivity|].
    pose proof (split_nonempty sep a) as Hne.
    destruct (split sep a) as [|h t]; [contradiction|]. reflexivity.
Qed.

Lemma length_split (sep : ascii) (s : string) :
  List.length (split sep s) = S (count_char sep s).
Proof.
  induction s as [|c r IH]; [reflexivity|].
  cbn [split count_char]. destruct (Ascii.eqb c sep).
  - simpl. rewrite IH. reflexivity.
  - pose proof (split_nonempty sep r) as Hne.
    destruct (split sep r) as [|h t]; [contradiction|]. simpl in *. lia.
Qed.

Lemma append_assoc (a b c : string) : ((a ++ b) ++ c = a ++ (b ++ c))%string.
Proof. induction a as [|x a IH]; simpl; [|rewrite IH]; reflexivity. Qed.

Lemma last_app_nonempty {A : Type} (l1 l2 : list A) (d : A) :
  l2 <> [] -> List.last (l1 ++ l2) d = List.last l2 d.
Proof.
  intros Hne. induction l1 as [|x l1 IH]; [reflexivity|].
  simpl. destruct (l1 ++ l2)%list eqn:E; [|exact IH].
  destruct l1; [simpl in E; contradiction|discriminate].
Qed.

(** The text after the last separator. *)
Lemma last_segment (sep : ascii) (a b : string) :
  free_of sep b -> AppSync.last_of (split sep (a ++ String sep b)) = b.
Proof.
  intros Hb. unfold AppSync.last_of.
  rewrite split_app, (split_free sep b Hb).
  rewrite last_app_nonempty by discriminate. reflexivity.
Qed.

(** The fourth field, when the first four are free of the separator. *)
Lemma fourth_field (sep : ascii) (p0 p1 p2 p3 rest : string) :
  free_of sep p0 -> free_of sep p1 -> free_of sep p2 -> free_of sep p3 ->
  List.nth_error
    (split sep (p0 ++ String sep (p1 ++ String sep (p2 ++ String sep
                                    (p3 ++ String sep rest))))) 3
  = Some p3.
Proof.
  intros H0 H1 H2 H3.
  rewrite !split_app, (split_free sep p0 H0), (split_free sep p1 H1),
    (split_free sep p2 H2), (split_free sep p3 H3).
  reflexivity.
Qed.

Lemma too_few_fields (sep : ascii) (s : string) :
  (count_char sep s < 3)%nat -> List.nth_error (split sep s) 3 = None.
Proof.
  intros H. apply List.nth_error_None. rewrite length_split. lia.
Qed.

End SplitFacts.

Import Measures.

(** X13: [ensure_ddb_ds] reads the table and the region off the ARN.  For
    an ARN [arn:<partition>:dynamodb:<region>:<account>:table/<table>] whose
    partition and region have no colon and whose table name has no slash,
    and with no data source of that name listed, the one creation call asks
    for a data source of type AMAZON_DYNAMODB on that table in that region,
    with the given role and without caller credentials. *)
Theorem ensure_ddb_ds_reads_arn {W : Type} (client : appsync_client W)
    (api_id name partition region account table role_arn : string) (w w1 : W)
    (resp : list_ds_response) :
  let table_arn := "arn:" ++ partition ++ ":dynamodb:" ++ region ++ ":"
                   ++ account ++ ":table/" ++ table in
  let req := DataSourceRequest api_id name "AMAZON_DYNAMODB" (Some role_arn)
               (DynamodbConfig table region false) in
  free_of ":" partition -> free_of ":" region -> free_of "/" table ->
  list_data_sources client api_id w = (Ok resp, w1) ->
  List.find (AppSync.ds_named name) (get_list (dataSources resp)) = None ->
  run (AppSync.ensure_ddb_ds client api_id name table_arn role_arn) w
    = (Vocabulary.outcome_of (fst (create_data_source client req w1)),
       RunState (snd (create_data_source client req w1))
         [ListDataSources api_id; CreateDataSource req]).
Proof.
  cbv zeta. intros Hp Hr Ht Hlist Hnone.
  unfold AppSync.ensure_ddb_ds, run, bind.
  rewrite MonadFacts.call_run. cbn [world log app]. rewrite Hlist.
  cbn [fst snd Vocabulary.outcome_of]. rewrite Hnone.
  assert (Hregion :
    List.nth_error (PyStr.split ":" ("arn:" ++ partition ++ ":dynamodb:" ++ region
                                     ++ ":" ++ account ++ ":table/" ++ table)) 3
    = Some region).
  { exact (SplitFacts.fourth_field ":" "arn" partition "dynamodb" region
             (account ++ ":table/" ++ table) eq_refl Hp eq_refl Hr). }
  assert (Htable :
    AppSync.last_of (PyStr.split "/" ("arn:" ++ partition ++ ":dynamodb:" ++ region
                                      ++ ":" ++ account ++ ":table/" ++ table))
    = table).
  { replace ("arn:" ++ partition ++ ":dynamodb:" ++ region ++ ":" ++ account
             ++ ":table/" ++ table)
      with (("arn:" ++ partition ++ ":dynamodb:" ++ region ++ ":" ++ account
             ++ ":table") ++ String "/" table).
    - apply SplitFacts.last_segment, Ht.
    - repeat (rewrite SplitFacts.append_assoc; simpl). reflexivity. }
  unfold AppSync.index3. rewrite Hregion, Htable. cbn [AppSync.lift ret].
  rewrite MonadFacts.call_run. reflexivity.
Qed.

Lemma ensure_ddb_ds_reads_arn_witness :
  free_of ":" "us-east-1"
  /\ run (AppSync.ensure_ddb_ds Demo.appsync "api" "CatalogDS"
            "arn:aws:dynamodb:us-east-1:000000000000:table/catalog" "role") Demo.fresh
     = (Returned (DataSource "CatalogDS" "AMAZON_DYNAMODB" "arn:aws:appsync:ds-new"),
        RunState
          (Demo.set_sources Demo.fresh
             [DataSource "CatalogDS" "AMAZON_DYNAMODB" "arn:aws:appsync:ds-new"])
          [ListDataSources "api";
           CreateDataSource
             (DataSourceRequest "api" "CatalogDS" "AMAZON_DYNAMODB" (Some "role")
                (DynamodbConfig "catalog" "us-east-1" false))]).
Proof.
  split; [reflexivity|].
  exact (ensure_ddb_ds_reads_arn Demo.appsync "api" "CatalogDS" "aws" "us-east-1"
           "000000000000" "catalog" "role" Demo.fresh Demo.fresh
           (ListDsResponse (Some []) None)
           eq_refl eq_refl eq_refl eq_refl eq_refl).
Defined.

(** X14: [ensure_sns_ds] reads the region off the topic ARN.  For an ARN
    [arn:<partition>:sns:<region>:<rest>] whose partition and region have no
    colon, and with no data source of that name listed, the one creation call
    asks for an HTTP data source on the SNS endpoint of that region, signed
    with IAM for that region and the service sns. *)
Theorem ensure_sns_ds_reads_arn {W : Type} (client : appsync_client W)
    (api_id name partition region rest role_arn : string) (w w1 : W)
    (resp : list_ds_response) :
  let topic_arn := "arn:" ++ partition ++ ":sns:" ++ region ++ ":" ++ rest in
  let req := DataSourceRequest api_id name "HTTP" (Some role_arn)
               (HttpConfig ("https://sns." ++ region ++ ".amazonaws.com/")
                  "AWS_IAM" region "sns") in
  free_of ":" partition -> free_of ":" region ->
  list_data_sources client api_id w = (Ok resp, w1) ->
  List.find (AppSync.ds_named name) (get_list (dataSources resp)) = None ->
  run (Pipeline.ensure_sns_ds client api_id name topic_arn role_arn) w
    = (Vocabulary.outcome_of (fst (create_data_source client req w1)),
       RunState (snd (create_data_source client req w1))
         [ListDataSources api_id; CreateDataSource req]).
Proof.
  cbv zeta. intros Hp Hr Hlist Hnone.
  unfold Pipeline.ensure_sns_ds, run, bind.
  rewrite MonadFacts.call_run. cbn [world log app]. rewrite Hlist.
  cbn [fst snd Vocabulary.outcome_of]. rewrite Hnone.
  assert (Hregion :
    List.nth_error (PyStr.split ":" ("arn:" ++ partition ++ ":sns:" ++ region
                                     ++ ":" ++ rest)) 3
    = Some region).
  { exact (SplitFacts.fourth_field ":" "arn" partition "sns" region rest
             eq_refl Hp eq_refl Hr). }
  unfold AppSync.index3. rewrite Hregion. cbn [AppSync.lift ret].
  rewrite MonadFacts.call_run. reflexivity.
Qed.

Lemma ensure_sns_ds_reads_arn_witness :
  free_of ":" "eu-west-1"
  /\ List.map is_creation
       (log (snd (run (Pipeline.ensure_sns_ds Demo.appsync "api" "SnsDS"
                         "arn:aws:sns:eu-west-1:000000000000:ghc25-anna-0315-price-changes"
                         "role") Demo.fresh)))
     = [false; true].
Proof.
  split; [reflexivity|].
  pose proof (ensure_sns_ds_reads_arn Demo.appsync "api" "SnsDS" "aws" "eu-west-1"
                "000000000000:ghc25-anna-0315-price-changes" "role"
                Demo.fresh Demo.fresh (ListDsResponse (Some []) None)
                eq_refl eq_refl eq_refl eq_refl
              : run (Pipeline.ensure_sns_ds Demo.appsync "api" "SnsDS"
                       "arn:aws:sns:eu-west-1:000000000000:ghc25-anna-0315-price-changes"
                       "role") Demo.fresh = _) as H.
  rewrite H. reflexivity.
Defined.

(** X15: with no data source of that name listed, an ARN with fewer than
    three colons makes [ensure_ddb_ds] and [ensure_sns_ds] raise [IndexError]
    right after the listing call: nothing is created. *)
Theorem ensure_ds_short_arn {W : Type} (client : appsync_client W)
    (api_id name arn role_arn : string) (w w1 : W) (resp : list_ds_response) :
  (count_char ":" arn < 3)%nat ->
  list_data_sources client api_id w = (Ok resp, w1) ->
  List.find (AppSync.ds_named name) (get_list (dataSources resp)) = None ->
  run (AppSync.ensure_ddb_ds client api_id name arn role_arn) w
    = (Raised (Exn IndexError "list index out of range"),
       RunState w1 [ListDataSources api_id])
  /\ run (Pipeline.ensure_sns_ds client api_id name arn role_arn) w
     = (Raised (Exn IndexError "list index out of range"),
        RunState w1 [ListDataSources api_id]).
Proof.
  intros Hshort Hlist Hnone.
  pose proof (SplitFacts.too_few_fields ":" arn Hshort) as Hnth.
  split.
  - unfold AppSync.ensure_ddb_ds, run, bind.
    rewrite MonadFacts.call_run. cbn [world log app]. rewrite Hlist.
    cbn [fst snd Vocabulary.outcome_of]. rewrite Hnone.
    unfold AppSync.index3. rewrite Hnth. reflexivity.
  - unfold Pipeline.ensure_sns_ds, run, bind.
    rewrite MonadFacts.call_run. cbn [world log app]. rewrite Hlist.
    cbn [fst snd Vocabulary.outcome_of]. rewrite Hnone.
    unfold AppSync.index3. rewrite Hnth. reflexivity.
Qed.

Lemma ensure_ds_short_arn_witness :
  (count_char ":" "catalog" < 3)%nat
  /\ run (Pipeline.ensure_sns_ds Demo.appsync "api" "SnsDS" "catalog" "role") Demo.fresh
     = (Raised (Exn IndexError "list index out of range"),
        RunState Demo.fresh [ListDataSources "api"]).
Proof.
  assert (H : (count_char ":" "catalog" < 3)%nat) by (vm_compute; lia).
  split; [exact H|].
  exact (proj2 (ensure_ds_short_arn Demo.appsync "api" "SnsDS" "catalog" "role"
                  Demo.fresh Demo.fresh (ListDsResponse (Some []) None)
                  H eq_refl eq_refl)).
Defined.

(** X16: the three data-source helpers list the data sources once, without
    a token, and never again; after that they issue at most one call, a
    creation call for the requested name on the requested API.  A name that
    the service would list on a later page is therefore not seen. *)
Theorem data_source_helpers_calls {W : Type} (client : appsync_client W)
    (api_id name arn role_arn : string) (w : W) :
  let shape (l : list event) :=
    l = [ListDataSources api_id]
    \/ exists req, l = [ListDataSources api_id; CreateDataSource req]
                   /\ dsr_apiId req = api_id /\ dsr_name req = name in
  shape (log (snd (run (AppSync.ensure_ddb_ds client api_id name arn role_arn) w)))
  /\ shape (log (snd (run (AppSync.ensure_none_ds client api_id name) w)))
  /\ shape (log (snd (run (Pipeline.ensure_sns_ds client api_id name arn role_arn) w))).
Proof.
  cbv zeta. split; [|split].
  - unfold AppSync.ensure_ddb_ds, run, bind.
    rewrite MonadFacts.call_run. cbn [world log app].
    destruct (list_data_sources client api_id w) as [[resp|e] w1];
      cbn [fst snd Vocabulary.outcome_of]; [|left; reflexivity].
    destruct (List.find (AppSync.ds_named name) (get_list (dataSources resp)));
      [left; reflexivity|].
    unfold AppSync.index3.
    destruct (List.nth_error (PyStr.split ":" arn) 3) as [region|];
      cbn [AppSync.lift ret raise]; [|left; reflexivity].
    rewrite MonadFacts.call_run. cbn [world log app snd].
    right. eexists. split; [reflexivity|]. split; reflexivity.
  - unfold AppSync.ensure_none_ds, run, bind.
    rewrite MonadFacts.call_run. cbn [world log app].
    destruct (list_data_sources client api_id w) as [[resp|e] w1];
      cbn [fst snd Vocabulary.outcome_of]; [|left; reflexivity].
    destruct (List.find (AppSync.ds_named name) (get_list (dataSources resp)));
      [left; reflexivity|].
    rewrite MonadFacts.call_run. cbn [world log app snd].
    right. eexists. split; [reflexivity|]. split; reflexivity.
  - unfold Pipeline.ensure_sns_ds, run, bind.
    rewrite MonadFacts.call_run. cbn [world log app].
    destruct (list_data_sources client api_id w) as [[resp|e] w1];
      cbn [fst snd Vocabulary.outcome_of]; [|left; reflexivity].
    destruct (List.find (AppSync.ds_named name) (get_list (dataSources resp)));
      [left; reflexivity|].
    unfold AppSync.index3.
    destruct (List.nth_error (PyStr.split ":" arn) 3) as [region|];
      cbn [AppSync.lift ret raise]; [|left; reflexivity].
    rewrite MonadFacts.call_run. cbn [world log app snd].
    right. eexists. split; [reflexivity|]. split; reflexivity.
Qed.

(** X17: the table helpers ([ensure_table] with the key "asin" or
    "asinVendor") raise as it is any fault of the first [describe_table]
    other than table-not-found, without creating; a fault of [create_table]
    ends them without waiting; and a fault of the waiter is raised although
    the creation call has been issued. *)
Theorem ensure_table_faults {W : Type}
    (boto3_dynamodb : string -> dynamodb_client W)
    (key table_name region : string) (w w1 : W) (e : exn) :
  let ddb := boto3_dynamodb region in
  let req := Pricing.table_request_for key table_name in
  describe_table ddb table_name w = (Raise e, w1) ->
  (Pricing.is_resource_not_found e = false ->
   run (Pricing.ensure_table boto3_dynamodb key table_name region) w
     = (Raised e, RunState w1 [DescribeTable table_name]))
  /\ (Pricing.is_resource_not_found e = true ->
      (forall e' w2,
         create_table ddb req w1 = (Raise e', w2) ->
         run (Pricing.ensure_table boto3_dynamodb key table_name region) w
           = (Raised e', RunState w2 [DescribeTable table_name; CreateTable req]))
      /\ (forall t w2 e' w3,
         create_table ddb req w1 = (Ok t, w2) ->
         wait_table_exists ddb table_name w2 = (Raise e', w3) ->
         run (Pricing.ensure_table boto3_dynamodb key table_name region) w
           = (Raised e', RunState w3 [DescribeTable table_name; CreateTable req;
                                      WaitTableExists table_name]))).
Proof.
  cbv zeta. intros Hd.
  unfold Pricing.ensure_table, run, bind, try_except.
  rewrite MonadFacts.call_run. cbn [world log app]. rewrite Hd.
  cbn [fst snd Vocabulary.outcome_of].
  split.
  - intros ->. reflexivity.
  - intros ->. cbn [ret]. split.
    + intros e' w2 Hc. rewrite MonadFacts.call_run. cbn [world log app].
      rewrite Hc. reflexivity.
    + intros t w2 e' w3 Hc Hw. rewrite MonadFacts.call_run. cbn [world log app].
      rewrite Hc. cbn [fst snd Vocabulary.outcome_of].
      rewrite MonadFacts.call_run. cbn [world log app]. rewrite Hw. reflexivity.
Qed.

Lemma ensure_table_faults_witness :
  Pricing.is_resource_not_found Outage.access_denied = false
  /\ run (Pricing.ensure_catalog_table (Outage.dynamodb unit Outage.access_denied)
            "catalog" "us-east-1") tt
     = (Raised Outage.access_denied, RunState tt [DescribeTable "catalog"]).
Proof.
  split; [reflexivity|].
  exact (proj1 (ensure_table_faults (Outage.dynamodb unit Outage.access_denied)
                  "asin" "catalog" "us-east-1" tt tt Outage.access_denied eq_refl)
           eq_refl).
Defined.

(** ** helpers_sns_sqs.py *)

Module MatchFacts.
Import PyStr.

Lemma lower_app (a b : string) : lower (a ++ b) = lower a ++ lower b.
Proof.
  unfold lower. induction a as [|c a IH]; simpl; [|rewrite IH]; reflexivity.
Qed.

Lemma prefix_app (n s : string) : String.prefix n (n ++ s) = true.
Proof.
  induction n as [|c n IH]; simpl; [destruct s; reflexivity|].
  destruct (Ascii.ascii_dec c c) as [_|N]; [exact IH|contradiction].
Qed.

Lemma contains_prefix (n h : string) :
  String.prefix n h = true -> contains n h = true.
Proof. destruct h; simpl; intros ->; reflexivity. Qed.

Lemma contains_app (n a b : string) : contains n (a ++ n ++ b) = true.
Proof.
  induction a as [|c a IH].
  - change (contains n (n ++ b) = true). apply contains_prefix, prefix_app.
  - simpl append. cbn [contains]. rewrite IH. apply orb_true_r.
Qed.

Lemma find_contains (n : string) (l : list string) (x : string) :
  List.find (contains n) l = Some x -> List.In x l /\ contains n x = true.
Proof. apply List.find_some. Qed.

Lemma find_contains_none (n : string) (l : list string) :
  (forall x, List.In x l -> contains n x = false) ->
  List.find (contains n) l = None.
Proof.
  intros H. destruct (List.find (contains n) l) as [x|] eqn:E; [|reflexivity].
  apply List.find_some in E as [Hin Hc]. rewrite (H x Hin) in Hc. discriminate.
Qed.

End MatchFacts.

(** X18: [ensure_sns_topic] creates first and looks nothing up: when
    [create_topic] succeeds its ARN is returned after that single call, and
    a fault whose message does not contain "already exists" is raised as it
    is; [list_topics] is not called in either case. *)
Theorem ensure_sns_topic_create_first {W : Type}
    (boto3_sns : string -> sns_client W) (api_name region : string) (w : W) :
  let topic := api_name ++ "-price-changes" in
  (forall arn w1,
     create_topic (boto3_sns region) topic w = (Ok arn, w1) ->
     run (SnsSqs.ensure_sns_topic boto3_sns api_name region) w
       = (Returned (Some arn), RunState w1 [CreateTopic topic]))
  /\ (forall e w1,
     create_topic (boto3_sns region) topic w = (Raise e, w1) ->
     SnsSqs.says_already_exists e = false ->
     run (SnsSqs.ensure_sns_topic boto3_sns api_name region) w
       = (Raised e, RunState w1 [CreateTopic topic])).
Proof.
  cbv zeta. unfold SnsSqs.ensure_sns_topic, run, try_except, bind.
  rewrite MonadFacts.call_run. cbn [world log app].
  split.
  - intros arn w1 ->. reflexivity.
  - intros e w1 -> Hno. cbn [fst snd Vocabulary.outcome_of SnsSqs.any_exception].
    rewrite Hno. reflexivity.
Qed.

Lemma ensure_sns_topic_create_first_witness :
  SnsSqs.says_already_exists Outage.access_denied = false
  /\ run (SnsSqs.ensure_sns_topic (Outage.sns unit Outage.access_denied)
            "ghc25-anna-0315" "us-east-1") tt
     = (Raised Outage.access_denied,
        RunState tt [CreateTopic "ghc25-anna-0315-price-changes"]).
Proof.
  split; [reflexivity|].
  exact (proj2 (ensure_sns_topic_create_first (Outage.sns unit Outage.access_denied)
                  "ghc25-anna-0315" "us-east-1" tt)
           Outage.access_denied tt eq_refl eq_refl).
Defined.

(** X19: when [create_topic] faults with "already exists" in its message,
    [ensure_sns_topic] lists the topics once and returns the first ARN that
    contains the topic name, an ARN of the listing; when no listed ARN
    contains it, it returns [None] and the fault is lost; a fault of
    [list_topics] itself is raised in place of the first. *)
Theorem ensure_sns_topic_fallback {W : Type}
    (boto3_sns : string -> sns_client W) (api_name region : string)
    (w w1 : W) (e : exn) :
  let topic := api_name ++ "-price-changes" in
  let res := run (SnsSqs.ensure_sns_topic boto3_sns api_name region) w in
  create_topic (boto3_sns region) topic w = (Raise e, w1) ->
  SnsSqs.says_already_exists e = true ->
  (forall topics w2,
     list_topics (boto3_sns region) w1 = (Ok topics, w2) ->
     res = (Returned (List.find (PyStr.contains topic) topics),
            RunState w2 [CreateTopic topic; ListTopics])
     /\ (forall arn, fst res = Returned (Some arn) ->
           List.In arn topics /\ PyStr.contains topic arn = true)
     /\ ((forall arn, List.In arn topics -> PyStr.contains topic arn = false) ->
         fst res = Returned None))
  /\ (forall e' w2,
     list_topics (boto3_sns region) w1 = (Raise e', w2) ->
     res = (Raised e', RunState w2 [CreateTopic topic; ListTopics])).
Proof.
  cbv zeta. intros Hc Hyes.
  unfold SnsSqs.ensure_sns_topic, run, try_except, bind.
  rewrite MonadFacts.call_run. cbn [world log app]. rewrite Hc.
  cbn [fst snd Vocabulary.outcome_of SnsSqs.any_exception]. rewrite Hyes.
  rewrite MonadFacts.call_run. cbn [world log app].
  split.
  - intros topics w2 ->. cbn [fst snd Vocabulary.outcome_of ret].
    split; [reflexivity|]. split.
    + intros arn H. inversion H as [H']. apply MatchFacts.find_contains, H'.
    + intros H. rewrite (MatchFacts.find_contains_none _ _ H). reflexivity.
  - intros e' w2 ->. reflexivity.
Qed.

Lemma ensure_sns_topic_fallback_witness :
  SnsSqs.says_already_exists
    (Exn (ServiceFault "InvalidParameter")
       "Invalid parameter: Tags Reason: Topic already exists with different tags")
    = true
  /\ fst (run (SnsSqs.ensure_sns_topic Demo.sns "nobody" "us-east-1") Demo.crowded)
     = Returned None.
Proof.
  split; [reflexivity|].
  refine (proj2 (proj2 (proj1 (ensure_sns_topic_fallback Demo.sns "nobody" "us-east-1"
                                 Demo.crowded Demo.crowded _ eq_refl eq_refl)
                          _ Demo.crowded eq_refl)) _).
  intros arn Hin. vm_compute in Hin.
  destruct Hin as [<-|[<-|[]]]; reflexivity.
Defined.

(** X20: when [create_queue] and [get_queue_attributes] succeed,
    [ensure_sqs_queue] returns the URL and the ARN they gave after these
    two calls; when [get_queue_attributes] then faults without "already
    exists" in its message, the fault is raised as it is although the queue
    has been created. *)
Theorem ensure_sqs_queue_create_first {W : Type}
    (boto3_sqs : string -> sqs_client W) (api_name region : string)
    (w w1 : W) (url : string) :
  let queue := api_name ++ "-price-processing" in
  let calls := [CreateQueue queue SnsSqs.queue_attributes;
                GetQueueAttributes url ["QueueArn"]] in
  create_queue (boto3_sqs region) queue SnsSqs.queue_attributes w = (Ok url, w1) ->
  (forall arn w2,
     get_queue_attributes (boto3_sqs region) url ["QueueArn"] w1 = (Ok arn, w2) ->
     run (SnsSqs.ensure_sqs_queue boto3_sqs api_name region) w
       = (Returned (url, arn), RunState w2 calls))
  /\ (forall e w2,
     get_queue_attributes (boto3_sqs region) url ["QueueArn"] w1 = (Raise e, w2) ->
     SnsSqs.says_already_exists e = false ->
     run (SnsSqs.ensure_sqs_queue boto3_sqs api_name region) w
       = (Raised e, RunState w2 calls)
     /\ creation_calls calls = 1%nat).
Proof.
  cbv zeta. intros Hc.
  unfold SnsSqs.ensure_sqs_queue, run, try_except, bind.
  rewrite MonadFacts.call_run. cbn [world log app]. rewrite Hc.
  cbn [fst snd Vocabulary.outcome_of].
  rewrite MonadFacts.call_run. cbn [world log app].
  split.
  - intros arn w2 ->. reflexivity.
  - intros e w2 -> Hno. cbn [fst snd Vocabulary.outcome_of SnsSqs.any_exception].
    rewrite Hno. split; reflexivity.
Qed.

Lemma ensure_sqs_queue_create_first_witness :
  create_queue (Demo.sqs "us-east-1") "ghc25-anna-0315-price-processing"
    SnsSqs.queue_attributes Demo.fresh
  = (Ok "https://sqs.us-east-1.amazonaws.com/000000000000/ghc25-anna-0315-price-processing",
     Demo.fresh)
  /\ fst (run (SnsSqs.ensure_sqs_queue Demo.sqs "ghc25-anna-0315" "us-east-1") Demo.fresh)
     = Returned
         ("https://sqs.us-east-1.amazonaws.com/000000000000/ghc25-anna-0315-price-processing",
          "arn:aws:sqs:us-east-1:000000000000:ghc25-anna-0315-price-processing").
Proof.
  split; [reflexivity|].
  pose proof (proj1 (ensure_sqs_queue_create_first Demo.sqs "ghc25-anna-0315"
                       "us-east-1" Demo.fresh Demo.fresh _ eq_refl)
                _ Demo.fresh eq_refl) as H.
  rewrite H. reflexivity.
Defined.

(** X21: when [create_queue] faults with "already exists" in its message
    and the prefix listing has no URL (an empty list, or no QueueUrls key at
    all), [ensure_sqs_queue] raises that first fault again, after the
    creation call and the listing call. *)
Theorem ensure_sqs_queue_reraises {W : Type}
    (boto3_sqs : string -> sqs_client W) (api_name region : string)
    (w w1 w2 : W) (e : exn) (urls : option (list string)) :
  let queue := api_name ++ "-price-processing" in
  create_queue (boto3_sqs region) queue SnsSqs.queue_attributes w = (Raise e, w1) ->
  SnsSqs.says_already_exists e = true ->
  list_queues (boto3_sqs region) queue w1 = (Ok (ListQueuesResponse urls), w2) ->
  get_list urls = [] ->
  run (SnsSqs.ensure_sqs_queue boto3_sqs api_name region) w
    = (Raised e, RunState w2 [CreateQueue queue SnsSqs.queue_attributes;
                              ListQueues queue]).
Proof.
  cbv zeta. intros Hc Hyes Hl Hempty.
  unfold SnsSqs.ensure_sqs_queue, run, try_except, bind.
  rewrite MonadFacts.call_run. cbn [world log app]. rewrite Hc.
  cbn [fst snd Vocabulary.outcome_of SnsSqs.any_exception]. rewrite Hyes.
  rewrite MonadFacts.call_run. cbn [world log app]. rewrite Hl.
  cbn [fst snd Vocabulary.outcome_of QueueUrls].
  destruct urls as [[|u us]|]; [reflexivity|discriminate|reflexivity].
Qed.

Lemma ensure_sqs_queue_reraises_witness :
  SnsSqs.says_already_exists
    (Exn (ServiceFault "QueueNameExists")
       "A queue already exists with the same name and a different value for attribute VisibilityTimeout")
    = true
  /\ fst (run (SnsSqs.ensure_sqs_queue Demo.sqs "nobody" "us-east-1") Demo.crowded)
     = Raised
         (Exn (ServiceFault "QueueNameExists")
            "A queue already exists with the same name and a different value for attribute VisibilityTimeout").
Proof.
  split; [reflexivity|].
  pose proof (ensure_sqs_queue_reraises Demo.sqs "nobody" "us-east-1"
                Demo.crowded Demo.crowded Demo.crowded _ (Some [])
                eq_refl eq_refl eq_refl eq_refl) as H.
  rewrite H. reflexivity.
Defined.

(** X22: the test for "already exists" ignores letter case and the class of
    the exception: a message that contains the phrase in any mix of upper
    and lower case passes it, anywhere in the message. *)
Theorem says_already_exists_any_case (cls : exn_class) (before phrase after : string) :
  PyStr.lower phrase = "already exists" ->
  SnsSqs.says_already_exists (Exn cls (before ++ phrase ++ after)) = true.
Proof.
  intros Hp. unfold SnsSqs.says_already_exists. cbn [exn_msg].
  rewrite !MatchFacts.lower_app, Hp. apply MatchFacts.contains_app.
Qed.

Lemma says_already_exists_any_case_witness :
  PyStr.lower "Already EXISTS" = "already exists"
  /\ SnsSqs.says_already_exists
       (Exn RuntimeError "Queue Already EXISTS in this account") = true.
Proof.
  split; [reflexivity|].
  exact (says_already_exists_any_case RuntimeError "Queue " "Already EXISTS"
           " in this account" eq_refl).
Defined.

(** ** helpers_ddb_pricing.py: seeding *)

Module SeedFacts.
Import Seeding.

Lemma append_cancel (a x y : string) : a ++ x = a ++ y -> x = y.
Proof.
  induction a as [|c a IH]; simpl; [auto|].
  intros H. inversion H. auto.
Qed.

Section WithWorld.
Context {W : Type}.
Variables (ddb : dynamodb_data W) (C : wall_clock W) (table_name asin : string).

(** The runs of [seed_cost], by the answers to its puts. *)
Lemma put_rows_cost_rows (w : W) :
  let first := cost_item asin "AcmeSupply" "865.00" "USD" (utcnow_iso C w) in
  let w1 := snd (put_item ddb table_name first w) in
  let second := cost_item asin "GlobalParts" "848.50" "USD" (utcnow_iso C w1) in
  Script.run (put_rows ddb C table_name asin cost_rows) w
  = match fst (put_item ddb table_name first w) with
    | Raise e => (Raise e, (w1, [PutItem table_name first]))
    | Ok _ =>
        (fst (put_item ddb table_name second w1),
         (snd (put_item ddb table_name second w1),
          [PutItem table_name first; PutItem table_name second]))
    end.
Proof.
  cbv zeta. unfold Script.run, cost_rows. cbn [put_rows].
  unfold Script.bind, Script.call, iso, Script.observe, Script.ret. cbn [fst snd app].
  destruct (put_item ddb table_name
              (cost_item asin "AcmeSupply" "865.00" "USD" (utcnow_iso C w)) w)
    as [[u|e] w1]; cbn [fst snd app]; [|reflexivity].
  destruct (put_item ddb table_name
              (cost_item asin "GlobalParts" "848.50" "USD" (utcnow_iso C w1)) w1)
    as [[[]|e] w2]; reflexivity.
Qed.

End WithWorld.

End SeedFacts.

(** X23: [seed_cost] writes the row of AcmeSupply, then that of
    GlobalParts, each stamped with the clock as read just before its put.
    It is not atomic: a fault of the first put ends it with nothing more
    sent, and a fault of the second put is raised with the first row already
    written; nothing is ever taken back. *)
Theorem seed_cost_not_atomic {W : Type}
    (boto3_dynamodb : string -> Seeding.dynamodb_data W)
    (C : Seeding.wall_clock W) (table_name region asin : string) (w : W) :
  let ddb := boto3_dynamodb region in
  let first := Seeding.cost_item asin "AcmeSupply" "865.00" "USD"
                 (Seeding.utcnow_iso C w) in
  (forall e w1,
     Seeding.put_item ddb table_name first w = (Raise e, w1) ->
     Script.run (Seeding.seed_cost boto3_dynamodb C table_name region asin) w
       = (Raise e, (w1, [Seeding.PutItem table_name first])))
  /\ (forall u w1,
     Seeding.put_item ddb table_name first w = (Ok u, w1) ->
     let second := Seeding.cost_item asin "GlobalParts" "848.50" "USD"
                     (Seeding.utcnow_iso C w1) in
     Script.run (Seeding.seed_cost boto3_dynamodb C table_name region asin) w
       = (fst (Seeding.put_item ddb table_name second w1),
          (snd (Seeding.put_item ddb table_name second w1),
           [Seeding.PutItem table_name first; Seeding.PutItem table_name second]))).
Proof.
  cbv zeta. unfold Seeding.seed_cost.
  pose proof (SeedFacts.put_rows_cost_rows (boto3_dynamodb region) C table_name asin w)
    as H. cbv zeta in H.
  split.
  - intros e w1 Hp. rewrite H, Hp. reflexivity.
  - intros u w1 Hp. rewrite H, Hp. reflexivity.
Qed.

Lemma seed_cost_not_atomic_witness :
  Script.run (Seeding.seed_cost (Seeding.memory 1) Seeding.counting_clock
                "cost" "us-east-1" "B00TEST") []
  = (Raise (Exn (ServiceFault "ProvisionedThroughputExceededException") "Rate exceeded"),
     ([Seeding.cost_item "B00TEST" "AcmeSupply" "865.00" "USD" "2025-11-03T00:00:00Z"],
      [Seeding.PutItem "cost"
         (Seeding.cost_item "B00TEST" "AcmeSupply" "865.00" "USD" "2025-11-03T00:00:00Z");
       Seeding.PutItem "cost"
         (Seeding.cost_item "B00TEST" "GlobalParts" "848.50" "USD" "2025-11-03T00:00:01Z")])).
Proof.
  exact (proj2 (seed_cost_not_atomic (Seeding.memory 1) Seeding.counting_clock
                  "cost" "us-east-1" "B00TEST" [])
           tt _ eq_refl).
Defined.

(** X24: whatever the service answers, every item [seed_cost] puts goes to
    the given table and has the partition key [asin#vendorId] for its own
    vendorId, AcmeSupply or GlobalParts; no two puts of a run have the same
    key, so the second never overwrites the first; and when the ASIN has no
    [#], the key splits back into the ASIN and the vendor. *)
Theorem seed_cost_keys {W : Type}
    (boto3_dynamodb : string -> Seeding.dynamodb_data W)
    (C : Seeding.wall_clock W) (table_name region asin : string) (w : W) :
  let l := snd (snd (Script.run
                       (Seeding.seed_cost boto3_dynamodb C table_name region asin) w)) in
  (forall table i,
     List.In (Seeding.PutItem table i) l ->
     table = table_name
     /\ exists vendor,
          (vendor = "AcmeSupply" \/ vendor = "GlobalParts")
          /\ Seeding.attribute "vendorId" i = Some ("S", vendor)
          /\ Seeding.attribute "asinVendor" i = Some ("S", asin ++ "#" ++ vendor)
          /\ (free_of "#" asin ->
              PyStr.split "#" (asin ++ "#" ++ vendor) = [asin; vendor]))
  /\ List.NoDup
       (List.map (fun ev => match ev with
                            | Seeding.PutItem _ i => Seeding.attribute "asinVendor" i
                            end) l).
Proof.
  cbv zeta. unfold Seeding.seed_cost.
  rewrite (SeedFacts.put_rows_cost_rows (boto3_dynamodb region) C table_name asin w).
  cbv zeta.
  assert (Hkey : forall vendor, free_of "#" vendor -> free_of "#" asin ->
            PyStr.split "#" (asin ++ "#" ++ vendor) = [asin; vendor]).
  { intros vendor Hv Ha. change (asin ++ "#" ++ vendor) with (asin ++ String "#" vendor).
    rewrite SplitFacts.split_app, (SplitFacts.split_free _ _ Ha),
      (SplitFacts.split_free _ _ Hv). reflexivity. }
  assert (Hin : forall table i stamp1 stamp2,
            List.In (Seeding.PutItem table i)
              [Seeding.PutItem table_name
                 (Seeding.cost_item asin "AcmeSupply" "865.00" "USD" stamp1);
               Seeding.PutItem table_name
                 (Seeding.cost_item asin "GlobalParts" "848.50" "USD" stamp2)] ->
            table = table_name
            /\ exists vendor,
                 (vendor = "AcmeSupply" \/ vendor = "GlobalParts")
                 /\ Seeding.attribute "vendorId" i = Some ("S", vendor)
                 /\ Seeding.attribute "asinVendor" i = Some ("S", asin ++ "#" ++ vendor)
                 /\ (free_of "#" asin ->
                     PyStr.split "#" (asin ++ "#" ++ vendor) = [asin; vendor])).
  { intros table i stamp1 stamp2 [H|[H|[]]]; inversion H; subst; (split; [reflexivity|]).
    - exists "AcmeSupply". repeat split; auto. apply Hkey. reflexivity.
    - exists "GlobalParts". repeat split; auto. apply Hkey. reflexivity. }
  destruct (fst (Seeding.put_item (boto3_dynamodb region) table_name
                   (Seeding.cost_item asin "AcmeSupply" "865.00" "USD"
                      (Seeding.utcnow_iso C w)) w)) as [u|e]; cbn [snd].
  - split.
    + intros table i H. eapply Hin. exact H.
    + cbn [List.map Seeding.attribute Seeding.cost_item String.eqb Ascii.eqb Bool.eqb].
      constructor.
      * intros [H|[]]. inversion H as [H']. apply SeedFacts.append_cancel in H'.
        discriminate.
      * constructor; [intros []|constructor].
  - split.
    + intros table i H. apply (Hin table i (Seeding.utcnow_iso C w) "").
      destruct H as [H|[]]. left. exact H.
    + constructor; [intros []|constructor].
Qed.

(** ** helpers_sns_sqs.py: the subscription *)

Module PolicyFacts.
Import Json Subscription.

Lemma escape_plain_char (c : ascii) :
  plain_char c = true -> escape_char c = String c EmptyString.
Proof.
  intros H. destruct c as [[] [] [] [] [] [] [] []]; vm_compute in H |- *;
    solve [reflexivity | discriminate].
Qed.

(** A string of plain characters is its own escaped form. *)
Lemma escape_plain (s : string) :
  PyStr.all_chars plain_char s = true -> escape s = s.
Proof.
  induction s as [|c r IH]; [reflexivity|].
  simpl. intros H. apply andb_true_iff in H as [Hc Hr].
  rewrite (escape_plain_char c Hc), (IH Hr). reflexivity.
Qed.

End PolicyFacts.

(** X25: [setup_sns_sqs_subscription] sets the policy of the queue first
    and subscribes second.  When setting the policy faults, the fault is
    raised and no subscription is made; when it succeeds, the queue is
    subscribed to the topic with protocol sqs and the result is what
    [subscribe] gives, its subscription ARN or its fault, the policy staying
    set in either case. *)
Theorem setup_subscription_order {W : Type}
    (boto3_sns : string -> Subscription.sns_subscribe_client W)
    (boto3_sqs : string -> Subscription.sqs_policy_client W)
    (topic_arn queue_arn queue_url region : string) (w : W) :
  let attributes :=
    [("Policy", Json.dumps (Subscription.policy topic_arn queue_arn))] in
  let set_policy := Subscription.SetQueueAttributes queue_url attributes in
  let res := Script.run (Subscription.setup_sns_sqs_subscription boto3_sns boto3_sqs
                           topic_arn queue_arn queue_url region) w in
  (forall e w1,
     Subscription.set_queue_attributes (boto3_sqs region) queue_url attributes w
       = (Raise e, w1) ->
     res = (Raise e, (w1, [set_policy])))
  /\ (forall u w1,
     Subscription.set_queue_attributes (boto3_sqs region) queue_url attributes w
       = (Ok u, w1) ->
     res = (fst (Subscription.subscribe (boto3_sns region) topic_arn "sqs" queue_arn w1),
            (snd (Subscription.subscribe (boto3_sns region) topic_arn "sqs" queue_arn w1),
             [set_policy; Subscription.Subscribe topic_arn "sqs" queue_arn]))).
Proof.
  cbv zeta.
  unfold Subscription.setup_sns_sqs_subscription, Script.run, Script.bind,
    Script.call, Script.ret.
  cbn [fst snd app].
  split.
  - intros e w1 ->. reflexivity.
  - intros u w1 ->. cbn [fst snd app].
    destruct (Subscription.subscribe (boto3_sns region) topic_arn "sqs" queue_arn w1)
      as [[arn|e] w2]; reflexivity.
Qed.

Lemma setup_subscription_order_witness :
  fst (Script.run
         (Subscription.setup_sns_sqs_subscription Subscription.sns_accepting
            (Subscription.sqs_refusing Outage.access_denied)
            "arn:aws:sns:us-east-1:000000000000:t" "arn:aws:sqs:us-east-1:000000000000:q"
            "https://sqs.us-east-1.amazonaws.com/000000000000/q" "us-east-1") tt)
  = Raise Outage.access_denied
  /\ List.length
       (snd (snd (Script.run
          (Subscription.setup_sns_sqs_subscription Subscription.sns_accepting
             (Subscription.sqs_refusing Outage.access_denied)
             "arn:aws:sns:us-east-1:000000000000:t" "arn:aws:sqs:us-east-1:000000000000:q"
             "https://sqs.us-east-1.amazonaws.com/000000000000/q" "us-east-1") tt)))
     = 1%nat.
Proof.
  pose proof (proj1 (setup_subscription_order Subscription.sns_accepting
                       (Subscription.sqs_refusing Outage.access_denied)
                       "arn:aws:sns:us-east-1:000000000000:t"
                       "arn:aws:sqs:us-east-1:000000000000:q"
                       "https://sqs.us-east-1.amazonaws.com/000000000000/q"
                       "us-east-1" tt)
                Outage.access_denied tt eq_refl) as H.
  cbv zeta in H. rewrite H. split; reflexivity.
Defined.

(** X26: for ARNs made of characters JSON leaves as they are (printable
    ASCII other than the quote mark and the backslash), the policy text sent
    by [setup_sns_sqs_subscription] is the fixed policy document with the
    queue ARN as its Resource and the topic ARN as its aws:SourceArn, both
    inserted unchanged. *)
Theorem policy_text_plain (topic_arn queue_arn : string) :
  PyStr.all_chars Subscription.plain_char topic_arn = true ->
  PyStr.all_chars Subscription.plain_char queue_arn = true ->
  Json.dumps (Subscription.policy topic_arn queue_arn)
  = PolicyText.before_queue ++ queue_arn ++ PolicyText.between
    ++ topic_arn ++ PolicyText.after_topic.
Proof.
  intros Ht Hq.
  unfold Subscription.policy.
  cbn [Json.dumps List.map Json.join fst snd].
  unfold Json.quoted.
  rewrite (PolicyFacts.escape_plain _ Ht), (PolicyFacts.escape_plain _ Hq).
  unfold PolicyText.before_queue, PolicyText.between, PolicyText.after_topic,
    PolicyText.q.
  repeat (rewrite ?SplitFacts.append_assoc; simpl).
  reflexivity.
Qed.

Lemma policy_text_plain_witness :
  PyStr.all_chars Subscription.plain_char "arn:aws:sns:us-east-1:000000000000:t" = true
  /\ String.length
       (Json.dumps (Subscription.policy "arn:aws:sns:us-east-1:000000000000:t"
                      "arn:aws:sqs:us-east-1:000000000000:q"))
     = (String.length PolicyText.before_queue + String.length PolicyText.between
        + String.length PolicyText.after_topic + 72)%nat.
Proof.
  split; [reflexivity|].
  rewrite (policy_text_plain "arn:aws:sns:us-east-1:000000000000:t"
             "arn:aws:sqs:us-east-1:000000000000:q" eq_refl eq_refl).
  reflexivity.
Defined.

(** ** Two more facts on the claims' functions *)

Module SleepFacts.
Import Vocabulary Measures.

(** No sleep follows the answer that ends the polling; one follows every
    other answer, the last of the thirty included. *)
Lemma polling_log_sleeps (api_id : string) (rs : list (result schema_status)) :
  total_sleep (polling_log api_id rs)
  = (2 * Z.of_nat (List.length (List.filter is_poll (polling_log api_id rs)))
     - match List.find stops rs with
       | Some _ => 2
       | None => 0
       end)%Z.
Proof.
  induction rs as [|r rs IH]; [reflexivity|].
  cbn [polling_log List.find].
  destruct (stops r).
  - reflexivity.
  - cbn [total_sleep List.filter is_poll List.length]. rewrite IH. lia.
Qed.

End SleepFacts.

(** X27: once the schema is read and its creation started, [upload_schema]
    sleeps two seconds after every poll but the one that ends the polling:
    with [p] polls it has slept [2 * (p - 1)] seconds when an answer stopped
    it, and the full 60 seconds when none did, two of them after the last
    poll. *)
Theorem upload_schema_sleep_accounting {W : Type} (E : environment W)
    (client : appsync_client W) (api_id schema_path data : string) (u : unit)
    (w w1 w2 : W) :
  let l := log (snd (run (AppSync.upload_schema E client api_id schema_path) w)) in
  let polls := Z.of_nat (List.length (List.filter Vocabulary.is_poll l)) in
  read_bytes E schema_path w = (Ok data, w1) ->
  start_schema_creation client api_id data w1 = (Ok u, w2) ->
  match List.find Vocabulary.stops (Vocabulary.answers 30 E client api_id w2) with
  | Some _ => total_sleep l = (2 * (polls - 1))%Z
  | None => polls = 30%Z /\ total_sleep l = 60%Z
  end.
Proof.
  cbv zeta. intros Hread Hstart.
  destruct (SchemaFacts.upload_schema_run E client api_id schema_path data u
              w w1 w2 Hread Hstart) as [_ Hlog].
  rewrite Hlog. cbn [total_sleep List.filter Vocabulary.is_poll].
  rewrite SleepFacts.polling_log_sleeps.
  destruct (List.find Vocabulary.stops (Vocabulary.answers 30 E client api_id w2))
    as [r|] eqn:Hfind.
  - lia.
  - rewrite (SchemaFacts.polls_all api_id _ Hfind), SchemaFacts.answers_length.
    split; reflexivity.
Qed.

Lemma upload_schema_sleep_accounting_witness :
  List.find Vocabulary.stops (Vocabulary.answers 30 Demo.env Demo.appsync "api" Demo.stuck)
    = None
  /\ total_sleep
       (log (snd (run (AppSync.upload_schema Demo.env Demo.appsync "api" "schema.graphql")
                    Demo.stuck))) = 60%Z.
Proof.
  split; [reflexivity|].
  pose proof (upload_schema_sleep_accounting Demo.env Demo.appsync "api"
                "schema.graphql" "type Query { ping: String }" tt
                Demo.stuck Demo.stuck Demo.stuck eq_refl eq_refl) as H.
  cbv zeta in H.
  change (List.find Vocabulary.stops
            (Vocabulary.answers 30 Demo.env Demo.appsync "api" Demo.stuck))
    with (@None (result schema_status)) in H.
  exact (proj2 H).
Defined.

(** X28: the names [sanitize_name] leaves unchanged are exactly the
    well-formed ones: lowercase letters, digits and hyphens only, a letter
    first, no hyphen at either end and no two hyphens in a row. *)
Theorem sanitize_name_fixed_points (name : string) :
  Env.sanitize_name name = name <-> Vocabulary.well_formed_name name = true.
Proof.
  unfold Vocabulary.well_formed_name, PyStr.ends_with_hyphen. split.
  - intros Hfix.
    destruct (EnvFacts.sanitize_name_safe name) as (Ha & Hf & Hs & Hd & Hl).
    rewrite Hfix in Ha, Hf, Hs, Hd, Hl.
    destruct Hl as [Hl|Hl].
    + unfold PyStr.ends_with_hyphen in Hl. rewrite Ha, Hf, Hs, Hd, Hl. reflexivity.
    + subst name. vm_compute in Hfix. discriminate.
  - intros H.
    apply andb_true_iff in H as [H Hd]. apply andb_true_iff in H as [H Hl].
    apply andb_true_iff in H as [H Hs]. apply andb_true_iff in H as [Ha Hf].
    apply negb_true_iff in Hd, Hl.
    apply EnvFacts.sanitize_name_fixed; assumption.
Qed.

Lemma seed_cost_keys_witness :
  List.In
    (Seeding.PutItem "cost"
       (Seeding.cost_item "B00TEST" "GlobalParts" "848.50" "USD" "2025-11-03T00:00:01Z"))
    (snd (snd (Script.run
                 (Seeding.seed_cost (Seeding.memory 5) Seeding.counting_clock
                    "cost" "us-east-1" "B00TEST") [])))
  /\ PyStr.split "#" ("B00TEST" ++ "#" ++ "GlobalParts") = ["B00TEST"; "GlobalParts"].
Proof.
  assert (Hin : List.In
    (Seeding.PutItem "cost"
       (Seeding.cost_item "B00TEST" "GlobalParts" "848.50" "USD" "2025-11-03T00:00:01Z"))
    (snd (snd (Script.run
                 (Seeding.seed_cost (Seeding.memory 5) Seeding.counting_clock
                    "cost" "us-east-1" "B00TEST") [])))).
  { right. left. reflexivity. }
  split; [exact Hin|].
  destruct (proj1 (seed_cost_keys (Seeding.memory 5) Seeding.counting_clock
                     "cost" "us-east-1" "B00TEST" []) _ _ Hin)
    as (_ & vendor & _ & Hv & _ & Hsplit).
  inversion Hv; subst vendor. apply Hsplit. reflexivity.
Defined.
